(** * KARMIC: the favour marketplace of [app.py]

    A shallow embedding of the request lifecycle (create, accept, helper
    confirmation, requester approval), the coin and experience ledger, the
    chat log, the rank function and the leaderboard, with the properties of
    the specification proved about them.

    Conventions of the embedding.
    - The three tables are finite maps from the integer primary key to the
      row; a row does not repeat its key.  [db.session.get(T, k)] is the
      lookup [t !! k].
    - Python integers are [Z]; strings are [string] (a sequence of bytes,
      compared byte by byte, which for UTF-8 text is the order of the code
      points Python compares).
    - The status column only ever receives the four literals the routes
      write, and is the enumeration [Status].
    - A route is a function from the persisted state, the session cookie
      and the request's arguments to an [Outcome]: the state persisted when
      the route ends, the notices it flashed and its response, or the
      exception that escaped it.
    - A commit persists the pending changes.  Of the column declarations,
      the defaults and the [nullable=False] of the columns a route can
      leave at [None] are embedded ([insert_request]); the lengths, which
      the storage engine does not enforce, and the unique username, which
      [login_signup] tests before it inserts, are not. *)

From Stdlib Require Import ZArith String List Lia Bool.
From Stdlib Require Import Sorting.Sorted Sorting.Permutation.
From stdpp Require Import base option list gmap fin_maps strings sorting.

#[local] Open Scope string_scope.
#[local] Open Scope Z_scope.

(** ** XP mapping and rank *)

(** [XP_MAPPING = {'Easy': 10, 'Medium': 25, 'Hard': 50}] *)
Definition XP_MAPPING : gmap string Z :=
  <["Easy" := 10]> (<["Medium" := 25]> (<["Hard" := 50]> ∅)).

(** [XP_MAPPING.get(difficulty, 10)]; [difficulty] is what
    [request.form.get] returned, [None] for a field that was not sent. *)
Definition xp_mapping_get (difficulty : option string) (dflt : Z) : Z :=
  match difficulty with
  | Some d => default dflt (XP_MAPPING !! d)
  | None => dflt
  end.

Definition get_karmic_rank (xp : Z) : string :=
  if (xp >=? 500)%Z then "Karmic Master"
  else if (xp >=? 200)%Z then "Community Elder"
  else if (xp >=? 50)%Z then "Active Peer"
  else if (xp >=? 10)%Z then "Helper Recruit"
  else "Newbie".

(** ** Database models *)

Record User := mkUser {
  username : string;
  password_hash : string;
  coins : Z;
  experience_points : Z
}.

Inductive Status := Live | Accepted | Confirmed_By_Helper | Completed.

#[global] Instance Status_eq_dec : EqDecision Status.
Proof. solve_decision. Defined.

Record Request := mkRequest {
  title : option string;
  description : option string;
  reward_coins : Z;
  difficulty : option string;
  xp_value : Z;
  requester_id : Z;
  helper_id : option Z;
  status : Status;
  timestamp : Z
}.

Record Message := mkMessage {
  msg_request_id : Z;
  sender_id : Z;
  content : string;
  msg_timestamp : Z
}.

Record DB := mkDB {
  users : gmap Z User;
  requests : gmap Z Request;
  messages : gmap Z Message
}.

(** Attribute assignments on a loaded row. *)
Definition set_coins (c : Z) (u : User) : User :=
  mkUser (username u) (password_hash u) c (experience_points u).

Definition set_experience_points (x : Z) (u : User) : User :=
  mkUser (username u) (password_hash u) (coins u) x.

Definition set_helper_id (h : option Z) (r : Request) : Request :=
  mkRequest (title r) (description r) (reward_coins r) (difficulty r)
            (xp_value r) (requester_id r) h (status r) (timestamp r).

Definition set_status (s : Status) (r : Request) : Request :=
  mkRequest (title r) (description r) (reward_coins r) (difficulty r)
            (xp_value r) (requester_id r) (helper_id r) s (timestamp r).

Definition put_user (k : Z) (u : User) (db : DB) : DB :=
  mkDB (<[k := u]> (users db)) (requests db) (messages db).

Definition put_request (k : Z) (r : Request) (db : DB) : DB :=
  mkDB (users db) (<[k := r]> (requests db)) (messages db).

Definition put_message (k : Z) (m : Message) (db : DB) : DB :=
  mkDB (users db) (requests db) (<[k := m]> (messages db)).

(** The key an insert receives: one more than the largest key of the
    table, 1 in an empty table (an INTEGER PRIMARY KEY column). *)
Definition max_key (ks : list Z) : option Z :=
  match ks with
  | [] => None
  | k :: ks' => Some (foldr Z.max k ks')
  end.

Definition next_id {A} (t : gmap Z A) : Z :=
  match max_key (map fst (map_to_list t)) with
  | None => 1
  | Some k => k + 1
  end.

(** ** Session *)

(** The [user_id] entry of the session cookie, if any. *)
Definition Session := option Z.

(** [get_current_user]: a missing or falsy [user_id] gives [None]; otherwise
    the row of that key, [None] when there is none. *)
Definition get_current_user (db : DB) (sess : Session) : option (Z * User) :=
  match sess with
  | Some user_id =>
      if decide (user_id = 0) then None
      else match users db !! user_id with
           | Some u => Some (user_id, u)
           | None => None
           end
  | None => None
  end.

(** ** Sorting

    [sorted] and SQL's ORDER BY are embedded as a stable insertion sort over
    the comparison [leb]: of two elements that compare equal both ways, the
    one met first stays first, as Python's [sorted] guarantees, also under
    [reverse=True]. *)
Section stable_sort.
Context {A : Type} (leb : A → A → bool).

Fixpoint insert_sorted (x : A) (l : list A) : list A :=
  match l with
  | [] => [x]
  | y :: l' => if leb x y then x :: l else y :: insert_sorted x l'
  end.

Definition sort_by (l : list A) : list A := foldr insert_sorted [] l.
End stable_sort.

(** Python's order on the tuples [(experience_points, coins, username)]:
    the first component that differs decides. *)
Definition LeaderKey : Type := Z * Z * string.

Definition key_leb (k1 k2 : LeaderKey) : bool :=
  let '(x1, c1, n1) := k1 in
  let '(x2, c2, n2) := k2 in
  if (x1 <? x2)%Z then true
  else if (x2 <? x1)%Z then false
  else if (c1 <? c2)%Z then true
  else if (c2 <? c1)%Z then false
  else String.leb n1 n2.

(** [lambda user: (user.experience_points, user.coins, user.username)] *)
Definition leader_key (u : Z * User) : LeaderKey :=
  (experience_points u.2, coins u.2, username u.2).

(** [sorted(all_users, key=..., reverse=True)[:10]] *)
Definition leaderboard_of (all_users : list (Z * User)) : list (Z * User) :=
  take 10 (sort_by (λ u v, key_leb (leader_key v) (leader_key u)) all_users).

(** [Message.query.filter_by(request_id=request_id)
       .order_by(Message.timestamp).all()] *)
Definition messages_of (db : DB) (request_id : Z) : list (Z * Message) :=
  sort_by (λ m n, (msg_timestamp m.2 <=? msg_timestamp n.2)%Z)
          (filter (λ m, msg_request_id m.2 = request_id)
                  (map_to_list (messages db))).

(** ** Responses *)

(** The notices the routes flash; the interpolated values are arguments. *)
Inductive Flash :=
| NotEnoughCoins (reward : Z)
| RequestPosted (title : option string) (reward : Z)
| NoLongerAvailable
| CannotAcceptOwn
| TaskAccepted (title : option string)
| NotReadyForConfirmation
| CompletionConfirmed
| NotRequesterOrUnconfirmed
| ApprovalSuccessful (reward xp : Z) (new_rank : string)
| ChatViewUnauthorized
| EmptyMessageOrNoTask
| ChatUnauthorized.

(** Targets of [url_for]. *)
Inductive Endpoint :=
| To_index
| To_login_signup
| To_create_request
| To_chat_view (request_id : Z).

(** Templates with the context they are rendered with. *)
Inductive Page :=
| Dashboard (user : Z * User) (live_requests my_requests : list (Z * Request))
            (user_rank : string) (leaderboard : list (Z * User))
| CreateRequestForm (user : Z * User)
| ChatPage (user : Z * User) (request : Z * Request)
           (msgs : list (Z * Message)) (partner : option (Z * User)).

Inductive Response :=
| Redirect (target : Endpoint)
| Render (page : Page).

Inductive Exn :=
| AttributeError      (* [.id] of [None] *)
| UnboundLocalError   (* [new_rank] read before assignment *)
| IntegrityError.     (* [None] in a [nullable=False] column at commit *)

Inductive Outcome :=
| Returned (db : DB) (flashed : list Flash) (resp : Response)
| Raised (db : DB) (e : Exn).

(** The state persisted when the route has ended. *)
Definition db_of (o : Outcome) : DB :=
  match o with
  | Returned db _ _ => db
  | Raised db _ => db
  end.

Definition raises (o : Outcome) : bool :=
  match o with
  | Returned _ _ _ => false
  | Raised _ _ => true
  end.

Inductive Method := GET | POST.

(** The fields [request.form.get] reads in [create_request]. *)
Record Form := mkForm {
  form_title : option string;
  form_description : option string;
  form_difficulty : option string
}.

(** ** Routes *)

Definition index (db : DB) (sess : Session) : Outcome :=
  match get_current_user db sess with
  | None => Returned db [] (Redirect To_login_signup)
  | Some current_user =>
      let live_requests :=
        filter (λ r, status r.2 = Live ∧ requester_id r.2 ≠ current_user.1)
               (map_to_list (requests db)) in
      let my_requests :=
        filter (λ r, requester_id r.2 = current_user.1
                     ∨ helper_id r.2 = Some current_user.1)
               (map_to_list (requests db)) in
      let all_users := map_to_list (users db) in
      let leaderboard := leaderboard_of all_users in
      let user_rank := get_karmic_rank (experience_points current_user.2) in
      Returned db []
        (Render (Dashboard current_user live_requests my_requests
                           user_rank leaderboard))
  end.

(** The row the INSERT of a new [Request] stores.  [title] and
    [description] are [nullable=False]: with [None] in one of them the
    commit raises and stores nothing.  A [difficulty] of [None] is left
    out of the INSERT, and the column default 'Medium' is stored. *)
Definition insert_request (r : Request) : option Request :=
  match title r, description r with
  | Some _, Some _ =>
      Some (mkRequest (title r) (description r) (reward_coins r)
                      (Some (default "Medium" (difficulty r))) (xp_value r)
                      (requester_id r) (helper_id r) (status r) (timestamp r))
  | _, _ => None
  end.

(** [now] is the clock reading [datetime.utcnow] gives the new row. *)
Definition create_request (db : DB) (sess : Session) (method : Method)
    (form : Form) (now : Z) : Outcome :=
  match get_current_user db sess with
  | None => Returned db [] (Redirect To_login_signup)
  | Some requester =>
      match method with
      | POST =>
          let title := form_title form in
          let description := form_description form in
          let difficulty := form_difficulty form in
          let xp_reward := xp_mapping_get difficulty 10 in
          let reward := xp_reward in
          if decide (coins requester.2 < reward) then
            Returned db [NotEnoughCoins reward] (Redirect To_create_request)
          else
            let new_request :=
              mkRequest title description reward difficulty xp_reward
                        requester.1 None Live now in
            let requester' :=
              set_coins (coins requester.2 - reward) requester.2 in
            match insert_request new_request with
            | Some row =>
                let db1 := put_user requester.1 requester' db in
                let db2 := put_request (next_id (requests db)) row db1 in
                Returned db2 [RequestPosted title reward] (Redirect To_index)
            | None =>
                (* the commit fails and the session is discarded: neither
                   the row nor the debit is persisted *)
                Raised db IntegrityError
            end
      | GET => Returned db [] (Render (CreateRequestForm requester))
      end
  end.

Definition accept_task (db : DB) (sess : Session) (request_id : Z) : Outcome :=
  let karmic_request := requests db !! request_id in
  let helper := get_current_user db sess in
  match karmic_request with
  | None => Returned db [NoLongerAvailable] (Redirect To_index)
  | Some r =>
      if decide (status r ≠ Live) then
        Returned db [NoLongerAvailable] (Redirect To_index)
      else
        match helper with
        | None => Raised db AttributeError
        | Some h =>
            if decide (requester_id r = h.1) then
              Returned db [CannotAcceptOwn] (Redirect To_index)
            else
              let r' := set_status Accepted (set_helper_id (Some h.1) r) in
              Returned (put_request request_id r' db)
                       [TaskAccepted (title r')] (Redirect To_index)
        end
  end.

Definition helper_confirm (db : DB) (sess : Session) (request_id : Z)
    : Outcome :=
  let karmic_request := requests db !! request_id in
  let helper := get_current_user db sess in
  match karmic_request with
  | None => Returned db [NotReadyForConfirmation] (Redirect To_index)
  | Some r =>
      match helper with
      | None => Raised db AttributeError
      | Some h =>
          if decide (helper_id r ≠ Some h.1 ∨ status r ≠ Accepted) then
            Returned db [NotReadyForConfirmation] (Redirect To_index)
          else
            let r' := set_status Confirmed_By_Helper r in
            Returned (put_request request_id r' db)
                     [CompletionConfirmed] (Redirect To_index)
      end
  end.

Definition requester_approve (db : DB) (sess : Session) (request_id : Z)
    : Outcome :=
  let karmic_request := requests db !! request_id in
  let requester := get_current_user db sess in
  match karmic_request with
  | None => Returned db [NotRequesterOrUnconfirmed] (Redirect To_index)
  | Some r =>
      match requester with
      | None => Raised db AttributeError
      | Some rq =>
          if decide (requester_id r ≠ rq.1 ∨ status r ≠ Confirmed_By_Helper)
          then Returned db [NotRequesterOrUnconfirmed] (Redirect To_index)
          else
            let helper :=
              match helper_id r with
              | Some hid =>
                  match users db !! hid with
                  | Some h => Some (hid, h)
                  | None => None
                  end
              | None => None
              end in
            let r' := set_status Completed r in
            match helper with
            | Some h =>
                let h1 := set_coins (coins h.2 + reward_coins r) h.2 in
                let h2 :=
                  set_experience_points
                    (experience_points h1 + xp_value r) h1 in
                let new_rank := get_karmic_rank (experience_points h2) in
                Returned (put_request request_id r' (put_user h.1 h2 db))
                         [ApprovalSuccessful (reward_coins r') (xp_value r')
                                             new_rank]
                         (Redirect To_index)
            | None =>
                (* the status is committed, then the notice reads
                   [new_rank], which no branch assigned *)
                Raised (put_request request_id r' db) UnboundLocalError
            end
      end
  end.

Definition chat_view (db : DB) (sess : Session) (request_id : Z) : Outcome :=
  let current_user := get_current_user db sess in
  let karmic_request := requests db !! request_id in
  match karmic_request with
  | None => Returned db [ChatViewUnauthorized] (Redirect To_index)
  | Some r =>
      match current_user with
      | None => Raised db AttributeError
      | Some cu =>
          if decide (requester_id r ≠ cu.1 ∧ helper_id r ≠ Some cu.1) then
            Returned db [ChatViewUnauthorized] (Redirect To_index)
          else
            let msgs := messages_of db request_id in
            let partner_id :=
              if decide (requester_id r = cu.1) then helper_id r
              else Some (requester_id r) in
            let partner :=
              match partner_id with
              | Some pid =>
                  if decide (pid = 0) then None
                  else match users db !! pid with
                       | Some p => Some (pid, p)
                       | None => None
                       end
              | None => None
              end in
            Returned db [] (Render (ChatPage cu (request_id, r) msgs partner))
      end
  end.

(** [content] is what [request.form.get('content')] returned. *)
Definition send_message (db : DB) (sess : Session) (request_id : Z)
    (content : option string) (now : Z) : Outcome :=
  let current_user := get_current_user db sess in
  let karmic_request := requests db !! request_id in
  match content, karmic_request with
  | None, _ | Some "", _ | _, None =>
      Returned db [EmptyMessageOrNoTask] (Redirect (To_chat_view request_id))
  | Some text, Some r =>
      match current_user with
      | None => Raised db AttributeError
      | Some cu =>
          if decide (requester_id r ≠ cu.1 ∧ helper_id r ≠ Some cu.1) then
            Returned db [ChatUnauthorized] (Redirect To_index)
          else
            let new_message := mkMessage request_id cu.1 text now in
            Returned (put_message (next_id (messages db)) new_message db)
                     [] (Redirect (To_chat_view request_id))
      end
  end.

(** ** Start-up, registration and the reachable states *)

Definition empty_db : DB := mkDB ∅ ∅ ∅.

(** [initialize_app]: fresh tables, then the two default users, who get the
    keys 1 and 2; [hashed_pass] is [generate_password_hash("password")]. *)
Definition initialize_app (hashed_pass : string) : DB :=
  let db1 :=
    put_user (next_id (users empty_db))
             (mkUser "RequesterA" hashed_pass 500 120) empty_db in
  put_user (next_id (users db1)) (mkUser "HelperB" hashed_pass 100 60) db1.

(** The registration branch of [login_signup]: when no user has the name,
    [User(username=..., password_hash=...)] is inserted with the column
    defaults [coins=100] and [experience_points=0]. *)
Definition register_user (db : DB) (name pw_hash : string) : DB :=
  match filter (λ u, username u.2 = name) (map_to_list (users db)) with
  | _ :: _ => db
  | [] => put_user (next_id (users db)) (mkUser name pw_hash 100 0) db
  end.

(** One request served; the routes that only read are left out. *)
Inductive Action :=
| Register (name pw_hash : string)
| Create_request (sess : Session) (method : Method) (form : Form) (now : Z)
| Accept_task (sess : Session) (request_id : Z)
| Helper_confirm (sess : Session) (request_id : Z)
| Requester_approve (sess : Session) (request_id : Z)
| Send_message (sess : Session) (request_id : Z) (content : option string)
               (now : Z).

Definition run (db : DB) (a : Action) : DB :=
  match a with
  | Register name pw_hash => register_user db name pw_hash
  | Create_request sess method form now =>
      db_of (create_request db sess method form now)
  | Accept_task sess request_id => db_of (accept_task db sess request_id)
  | Helper_confirm sess request_id => db_of (helper_confirm db sess request_id)
  | Requester_approve sess request_id =>
      db_of (requester_approve db sess request_id)
  | Send_message sess request_id content now =>
      db_of (send_message db sess request_id content now)
  end.

Inductive reachable : DB → Prop :=
| reachable_init hashed_pass : reachable (initialize_app hashed_pass)
| reachable_step db a : reachable db → reachable (run db a).

(** ** The ledger *)

Definition table_sum {A} (f : A → Z) (t : gmap Z A) : Z :=
  map_fold (λ _ x acc, f x + acc) 0 t.

(** What a request holds in escrow: its reward until it is completed. *)
Definition escrow (r : Request) : Z :=
  if decide (status r = Completed) then 0 else reward_coins r.

Definition total_supply (db : DB) : Z :=
  table_sum coins (users db) + table_sum escrow (requests db).

(** ** The status order *)

Inductive status_next : Status → Status → Prop :=
| next_accept : status_next Live Accepted
| next_confirm : status_next Accepted Confirmed_By_Helper
| next_approve : status_next Confirmed_By_Helper Completed.

(** A notice that reports a rejected action. *)
Definition rejection (f : Flash) : bool :=
  match f with
  | NotEnoughCoins _ | NoLongerAvailable | CannotAcceptOwn
  | NotReadyForConfirmation | NotRequesterOrUnconfirmed
  | ChatViewUnauthorized | EmptyMessageOrNoTask | ChatUnauthorized => true
  | RequestPosted _ _ | TaskAccepted _ | CompletionConfirmed
  | ApprovalSuccessful _ _ _ => false
  end.

(** The action went through: the route returned and flashed no rejection. *)
Definition succeeded (o : Outcome) : bool :=
  match o with
  | Returned _ flashed _ => forallb (λ f, negb (rejection f)) flashed
  | Raised _ _ => false
  end.

(** Every request past [Live] has a helper, and the helper is a user. *)
Definition helpers_assigned (db : DB) : Prop :=
  ∀ k r, requests db !! k = Some r → status r ≠ Live →
    ∃ h, helper_id r = Some h ∧ is_Some (users db !! h).

(** ** Login, registration and logout *)

(** The notices of [login_signup] and [logout]. *)
Inductive AuthFlash :=
| EnterBoth
| UserExists (name : string)
| RegistrationSuccessful (name : string) (start_coins : Z)
| WelcomeBack (name : string)
| InvalidCredentials
| LoggedOut.

(** The fields [request.form.get] reads in [login_signup]. *)
Record AuthForm := mkAuthForm {
  form_username : option string;
  form_password : option string;
  form_action : option string
}.

Inductive AuthResponse :=
| AuthRedirect (target : Endpoint)
| RenderLoginSignup.

(** These two routes also write the session, so their outcome carries it. *)
Inductive AuthOutcome :=
| AuthReturned (db : DB) (sess : Session) (flashed : list AuthFlash)
               (resp : AuthResponse)
| AuthRaised (db : DB) (sess : Session) (e : Exn).

Definition auth_db (o : AuthOutcome) : DB :=
  match o with
  | AuthReturned db _ _ _ => db
  | AuthRaised db _ _ => db
  end.

Definition auth_session (o : AuthOutcome) : Session :=
  match o with
  | AuthReturned _ sess _ _ => sess
  | AuthRaised _ sess _ => sess
  end.

(** [User.query.filter_by(username=name).first()] *)
Definition user_named (db : DB) (name : string) : option (Z * User) :=
  head (filter (λ u, username u.2 = name) (map_to_list (users db))).

Section auth.
(** [str.strip] and werkzeug's two password functions are library code. *)
Variable strip : string → string.
Variable generate_password_hash : string → string.
Variable check_password_hash : string → string → bool.

Definition login_signup (db : DB) (sess : Session) (method : Method)
    (form : AuthForm) : AuthOutcome :=
  match method with
  | GET => AuthReturned db sess [] RenderLoginSignup
  | POST =>
      match form_username form with
      | None => AuthRaised db sess AttributeError   (* [None.strip()] *)
      | Some raw =>
          let name := strip raw in
          let password := form_password form in
          let action := form_action form in
          match name, password with
          | "", _ | _, None | _, Some "" =>
              AuthReturned db sess [EnterBoth] (AuthRedirect To_login_signup)
          | _, Some pw =>
              let user := user_named db name in
              if decide (action = Some "register") then
                match user with
                | Some _ =>
                    AuthReturned db sess [UserExists name]
                                 (AuthRedirect To_login_signup)
                | None =>
                    let new_user :=
                      mkUser name (generate_password_hash pw) 100 0 in
                    let new_id := next_id (users db) in
                    AuthReturned (put_user new_id new_user db) (Some new_id)
                      [RegistrationSuccessful (username new_user)
                                              (coins new_user)]
                      (AuthRedirect To_index)
                end
              else if decide (action = Some "login") then
                match user with
                | Some u =>
                    if check_password_hash (password_hash u.2) pw then
                      AuthReturned db (Some u.1) [WelcomeBack (username u.2)]
                                   (AuthRedirect To_index)
                    else
                      AuthReturned db sess [InvalidCredentials]
                                   (AuthRedirect To_login_signup)
                | None =>
                    AuthReturned db sess [InvalidCredentials]
                                 (AuthRedirect To_login_signup)
                end
              else AuthReturned db sess [] (AuthRedirect To_index)
          end
      end
  end.
End auth.

(** [session.pop('user_id', None)] *)
Definition logout (db : DB) (sess : Session) : AuthOutcome :=
  AuthReturned db None [LoggedOut] (AuthRedirect To_login_signup).

(** ** What the reachable states have in common *)

(** The keys of a table are 1, 2, ..., up to the number of its rows. *)
Definition dense {A} (t : gmap Z A) : Prop :=
  ∀ k, is_Some (t !! k) ↔ 1 ≤ k ≤ Z.of_nat (size t).

Record request_ok (db : DB) (r : Request) : Prop := mk_request_ok {
  ok_reward : reward_coins r = 10 ∨ reward_coins r = 25 ∨ reward_coins r = 50;
  ok_xp : xp_value r = reward_coins r;
  ok_mapping :
    reward_coins r = xp_mapping_get (difficulty r) 10 ∨
    (difficulty r = Some "Medium" ∧ reward_coins r = 10);
  ok_requester : is_Some (users db !! requester_id r);
  ok_live : helper_id r = None ↔ status r = Live;
  ok_helper : helper_id r ≠ Some (requester_id r);
  ok_columns :
    is_Some (title r) ∧ is_Some (description r) ∧ is_Some (difficulty r)
}.

Record message_ok (db : DB) (m : Message) : Prop := mk_message_ok {
  ok_thread : ∃ r, requests db !! msg_request_id m = Some r ∧
                (sender_id m = requester_id r ∨ helper_id r = Some (sender_id m));
  ok_content : content m ≠ ""
}.

Record consistent (db : DB) : Prop := mk_consistent {
  users_dense : dense (users db);
  requests_dense : dense (requests db);
  messages_dense : dense (messages db);
  users_solvent :
    ∀ k u, users db !! k = Some u → 0 ≤ coins u ∧ 0 ≤ experience_points u;
  requests_ok : ∀ k r, requests db !! k = Some r → request_ok db r;
  messages_ok : ∀ k m, messages db !! k = Some m → message_ok db m
}.

(** ** A state in progress *)

(** A reachable state for the examples: RequesterA has posted a 'Medium'
    request, HelperB has accepted it and written a message. *)
Definition db_in_progress : DB :=
  run (run (run (initialize_app "pbkdf2")
    (Create_request (Some 1) POST
       (mkForm (Some "Groceries") (Some "Two bags") (Some "Medium")) 10))
    (Accept_task (Some 2) 1))
    (Send_message (Some 2) 1 (Some "On my way") 20).

(** ** How the tables change *)

(** The row a settlement leaves to the helper. *)
Definition credited (r : Request) (u : User) : User :=
  mkUser (username u) (password_hash u) (coins u + reward_coins r)
         (experience_points u + xp_value r).

Inductive users_change (db : DB) (a : Action) : gmap Z User → Prop :=
| users_same : users_change db a (users db)
| users_registered name pw_hash :
    a = Register name pw_hash →
    users_change db a
      (<[next_id (users db) := mkUser name pw_hash 100 0]> (users db))
| users_debited k u c :
    users db !! k = Some u → coins u - c ≤ coins u →
    users_change db a (<[k := set_coins (coins u - c) u]> (users db))
| users_credited k u rid r :
    users db !! k = Some u → requests db !! rid = Some r →
    status r = Confirmed_By_Helper →
    users_change db a (<[k := credited r u]> (users db)).

(** Coins in circulation and in escrow, against the number of users. *)
Definition census (db : DB) : Prop :=
  total_supply db = 400 + 100 * Z.of_nat (size (users db)).

Inductive requests_change (db : DB) : gmap Z Request → Prop :=
| requests_same : requests_change db (requests db)
| requests_created r :
    requests_change db (<[next_id (requests db) := r]> (requests db))
| requests_accepted rid r h :
    requests db !! rid = Some r → status r = Live →
    requests_change db
      (<[rid := set_status Accepted (set_helper_id (Some h) r)]> (requests db))
| requests_advanced rid r s :
    requests db !! rid = Some r → status r ≠ Live → s ≠ Live →
    requests_change db (<[rid := set_status s r]> (requests db)).

(** The columns of [r'] that no route assigns are those of [r], and a
    helper, once assigned, stays. *)
Definition row_evolves (r r' : Request) : Prop :=
  title r' = title r ∧ description r' = description r ∧
  reward_coins r' = reward_coins r ∧ difficulty r' = difficulty r ∧
  xp_value r' = xp_value r ∧ requester_id r' = requester_id r ∧
  timestamp r' = timestamp r ∧
  (status r ≠ Live → status r' ≠ Live ∧ helper_id r' = helper_id r).

(** ** Ranking *)

Definition ranks_above (u v : Z * User) : Prop :=
  key_leb (leader_key v) (leader_key u) = true.

(** ** Library stand-ins *)

(** Stand-ins for the library functions in the examples: a strip that
    finds nothing to strip, and a hash that prefixes the password. *)
Definition example_strip (s : string) : string := s.
Definition example_hash (pw : string) : string := "h$" ++ pw.
Definition example_check (h pw : string) : bool := String.eqb h ("h$" ++ pw).

(** * Properties *)

(** ** Keys *)

Lemma foldr_max_ge (k0 : Z) (ks : list Z) :
  k0 ≤ foldr Z.max k0 ks ∧ ∀ k, k ∈ ks → k ≤ foldr Z.max k0 ks.
Proof.
  induction ks as [|k' ks [IH0 IH]]; simpl.
  - split; [lia|]. intros k Hk. inversion Hk.
  - split; [lia|]. intros k Hk. apply elem_of_cons in Hk as [->|Hk].
    + lia.
    + specialize (IH k Hk). lia.
Qed.

Lemma next_id_above {A} (t : gmap Z A) k :
  is_Some (t !! k) → k < next_id t.
Proof.
  intros [x Hx]. apply elem_of_map_to_list in Hx.
  assert (Hk : k ∈ map fst (map_to_list t)).
  { apply list_elem_of_In, in_map_iff. exists (k, x). split; [done|].
    by apply list_elem_of_In. }
  unfold next_id. destruct (map fst (map_to_list t)) as [|k0 ks]; simpl.
  - inversion Hk.
  - destruct (foldr_max_ge k0 ks) as [H0 Hks].
    apply elem_of_cons in Hk as [->|Hk]; [lia|]. specialize (Hks k Hk). lia.
Qed.

Lemma next_id_fresh {A} (t : gmap Z A) : t !! next_id t = None.
Proof.
  destruct (t !! next_id t) eqn:E; [|done].
  assert (next_id t < next_id t) by (apply next_id_above; eauto). lia.
Qed.

(** ** Sums over a table *)

Lemma table_sum_insert_fresh {A} (f : A → Z) (t : gmap Z A) k x :
  t !! k = None → table_sum f (<[k := x]> t) = f x + table_sum f t.
Proof.
  intros Hk. unfold table_sum.
  rewrite map_fold_insert_L; [done| |done]. intros. lia.
Qed.

Lemma table_sum_insert_update {A} (f : A → Z) (t : gmap Z A) k x y :
  t !! k = Some y → table_sum f (<[k := x]> t) = table_sum f t - f y + f x.
Proof.
  intros Hk.
  rewrite <- (insert_delete_eq t k x).
  rewrite table_sum_insert_fresh by apply lookup_delete_eq.
  unfold table_sum at 2.
  rewrite (map_fold_delete_L _ _ k y t); [|intros; lia|done].
  fold (table_sum f (delete k t)). lia.
Qed.

(** ** The stable sort *)

Section stable_sort_facts.
Context {A : Type} (leb : A → A → bool).
Hypothesis leb_total : ∀ x y, leb x y = true ∨ leb y x = true.
Hypothesis leb_trans :
  ∀ x y z, leb x y = true → leb y z = true → leb x z = true.

Lemma insert_sorted_perm x l : insert_sorted leb x l ≡ₚ x :: l.
Proof.
  induction l as [|y l IH]; simpl; [done|].
  destruct (leb x y); [done|]. rewrite IH. apply Permutation_swap.
Qed.

Lemma sort_by_perm l : sort_by leb l ≡ₚ l.
Proof.
  induction l as [|x l IH]; simpl; [done|].
  rewrite insert_sorted_perm. by rewrite IH.
Qed.

Lemma insert_sorted_sorted x l :
  StronglySorted (λ a b, leb a b = true) l →
  StronglySorted (λ a b, leb a b = true) (insert_sorted leb x l).
Proof.
  induction 1 as [|y l Hl IH Hy]; simpl.
  - repeat constructor.
  - destruct (leb x y) eqn:E.
    + constructor; [by constructor|]. constructor; [done|].
      eapply Forall_impl; [exact Hy|]. intros z Hz. simpl in Hz. eauto.
    + constructor; [done|].
      rewrite (insert_sorted_perm x l). constructor; [|done].
      destruct (leb_total x y); congruence.
Qed.

Lemma sort_by_sorted l :
  StronglySorted (λ a b, leb a b = true) (sort_by leb l).
Proof.
  induction l as [|x l IH]; simpl; [constructor|].
  by apply insert_sorted_sorted.
Qed.
End stable_sort_facts.

(** ** The order of the leaderboard keys *)

Lemma string_leb_trans (x y z : string) :
  String.leb x y = true → String.leb y z = true → String.leb x z = true.
Proof.
  unfold String.leb. revert y z.
  induction x as [|a x IH]; intros [|b y] [|c z]; simpl; try done.
  unfold Ascii.compare.
  destruct (N.compare_spec (Ascii.N_of_ascii a) (Ascii.N_of_ascii b)) as [E1|E1|E1];
    destruct (N.compare_spec (Ascii.N_of_ascii b) (Ascii.N_of_ascii c)) as [E2|E2|E2];
    destruct (N.compare_spec (Ascii.N_of_ascii a) (Ascii.N_of_ascii c)) as [E3|E3|E3];
    try done; try lia.
  apply IH.
Qed.

Lemma key_leb_spec (x1 c1 x2 c2 : Z) (n1 n2 : string) :
  key_leb (x1, c1, n1) (x2, c2, n2) = true ↔
  x1 < x2 ∨ (x1 = x2 ∧ (c1 < c2 ∨ (c1 = c2 ∧ String.leb n1 n2 = true))).
Proof.
  unfold key_leb.
  destruct (Z.ltb_spec x1 x2), (Z.ltb_spec x2 x1),
           (Z.ltb_spec c1 c2), (Z.ltb_spec c2 c1);
    try lia; try (split; [intros; lia | intros; done]);
    split; try done; try (intros; lia); try (intros; exfalso; lia).
  - intros ?. right. split; [lia|]. right. split; [lia|done].
  - intros [?|[_ [?|[_ ?]]]]; try lia; done.
Qed.

Lemma key_leb_total (k1 k2 : LeaderKey) :
  key_leb k1 k2 = true ∨ key_leb k2 k1 = true.
Proof.
  destruct k1 as [[x1 c1] n1], k2 as [[x2 c2] n2].
  rewrite !key_leb_spec.
  destruct (Z.lt_total x1 x2) as [?|[->|?]]; [by left; left| |by right; left].
  destruct (Z.lt_total c1 c2) as [?|[->|?]];
    [by left; right; split; [|left] | | by right; right; split; [|left]].
  destruct (String.leb_total n1 n2); [left|right]; right; split; auto.
Qed.

Lemma key_leb_trans (k1 k2 k3 : LeaderKey) :
  key_leb k1 k2 = true → key_leb k2 k3 = true → key_leb k1 k3 = true.
Proof.
  destruct k1 as [[x1 c1] n1], k2 as [[x2 c2] n2], k3 as [[x3 c3] n3].
  rewrite !key_leb_spec.
  intros [?|[-> [?|[-> H1]]]] [?|[? [?|[? H2]]]];
    subst; try lia.
  right. split; [done|]. right. split; [done|].
  eapply string_leb_trans; eauto.
Qed.

(** ** Rank and difficulty mapping *)

(** C9: the rank is a function of the experience points alone, and its
    value is 'Newbie' on 0..9, 'Helper Recruit' on 10..49, 'Active Peer' on
    50..199, 'Community Elder' on 200..499 and 'Karmic Master' from 500
    on. *)
Theorem get_karmic_rank_bands (xp : Z) :
  (0 ≤ xp ≤ 9 → get_karmic_rank xp = "Newbie") ∧
  (10 ≤ xp ≤ 49 → get_karmic_rank xp = "Helper Recruit") ∧
  (50 ≤ xp ≤ 199 → get_karmic_rank xp = "Active Peer") ∧
  (200 ≤ xp ≤ 499 → get_karmic_rank xp = "Community Elder") ∧
  (500 ≤ xp → get_karmic_rank xp = "Karmic Master").
Proof.
  unfold get_karmic_rank. rewrite !Z.geb_leb.
  destruct (Z.leb_spec 500 xp), (Z.leb_spec 200 xp), (Z.leb_spec 50 xp),
           (Z.leb_spec 10 xp);
    repeat split; intros; first [reflexivity | lia].
Qed.

Lemma get_karmic_rank_bands_witness :
  get_karmic_rank 9 = "Newbie" ∧
  get_karmic_rank 10 = "Helper Recruit" ∧
  get_karmic_rank 199 = "Active Peer" ∧
  get_karmic_rank 200 = "Community Elder" ∧
  get_karmic_rank 500 = "Karmic Master".
Proof.
  refine (conj _ (conj _ (conj _ (conj _ _)))).
  - apply (get_karmic_rank_bands 9). lia.
  - apply (get_karmic_rank_bands 10). lia.
  - apply (get_karmic_rank_bands 199). lia.
  - apply (get_karmic_rank_bands 200). lia.
  - apply (get_karmic_rank_bands 500). lia.
Defined.

Lemma xp_mapping_get_known :
  xp_mapping_get (Some "Easy") 10 = 10 ∧
  xp_mapping_get (Some "Medium") 10 = 25 ∧
  xp_mapping_get (Some "Hard") 10 = 50.
Proof. repeat split. Qed.

Lemma xp_mapping_get_unknown (difficulty : option string) :
  difficulty ≠ Some "Easy" → difficulty ≠ Some "Medium" →
  difficulty ≠ Some "Hard" → xp_mapping_get difficulty 10 = 10.
Proof.
  intros HE HM HH. destruct difficulty as [d|]; [|done]. simpl.
  unfold XP_MAPPING.
  rewrite !lookup_insert_ne, lookup_empty by congruence. done.
Qed.

(** ** Creation *)

(** What a submitted creation form that carries a title and a description
    does for a requester who holds the reward. *)
Lemma create_request_funded db sess rq form now t d :
  get_current_user db sess = Some rq →
  form_title form = Some t → form_description form = Some d →
  xp_mapping_get (form_difficulty form) 10 ≤ coins rq.2 →
  create_request db sess POST form now =
    let reward := xp_mapping_get (form_difficulty form) 10 in
    Returned
      (put_request (next_id (requests db))
         (mkRequest (Some t) (Some d) reward
                    (Some (default "Medium" (form_difficulty form))) reward
                    rq.1 None Live now)
         (put_user rq.1 (set_coins (coins rq.2 - reward) rq.2) db))
      [RequestPosted (Some t) reward] (Redirect To_index).
Proof.
  intros Hu Ht Hd Hc. unfold create_request, insert_request. rewrite Hu.
  destruct (decide _); [lia|]. simpl. by rewrite Ht, Hd.
Qed.

(** Without a title or without a description the commit fails. *)
Lemma create_request_incomplete db sess rq form now :
  get_current_user db sess = Some rq →
  form_title form = None ∨ form_description form = None →
  xp_mapping_get (form_difficulty form) 10 ≤ coins rq.2 →
  create_request db sess POST form now = Raised db IntegrityError.
Proof.
  intros Hu Hn Hc. unfold create_request, insert_request. rewrite Hu.
  destruct (decide _); [lia|]. simpl.
  destruct Hn as [-> | ->]; [done|]. by destruct (form_title form).
Qed.

Lemma create_request_short db sess rq form now :
  get_current_user db sess = Some rq →
  coins rq.2 < xp_mapping_get (form_difficulty form) 10 →
  create_request db sess POST form now =
    Returned db [NotEnoughCoins (xp_mapping_get (form_difficulty form) 10)]
             (Redirect To_create_request).
Proof.
  intros Hu Hc. unfold create_request. rewrite Hu.
  destruct (decide _); [done|lia].
Qed.

Lemma get_current_user_lookup db sess cu :
  get_current_user db sess = Some cu → users db !! cu.1 = Some cu.2.
Proof.
  unfold get_current_user. destruct sess as [uid|]; [|done].
  destruct (decide _); [done|].
  destruct (users db !! uid) eqn:E; [|done]. by intros [= <-].
Qed.

(** The ways a call of [create_request] ends: nothing persisted, or the
    debit and the row built from the form. *)
Lemma create_request_cases db sess method form now :
  db_of (create_request db sess method form now) = db ∨
  ∃ rq t d,
    get_current_user db sess = Some rq ∧ method = POST ∧
    form_title form = Some t ∧ form_description form = Some d ∧
    xp_mapping_get (form_difficulty form) 10 ≤ coins rq.2 ∧
    db_of (create_request db sess method form now) =
      put_request (next_id (requests db))
        (mkRequest (Some t) (Some d)
                   (xp_mapping_get (form_difficulty form) 10)
                   (Some (default "Medium" (form_difficulty form)))
                   (xp_mapping_get (form_difficulty form) 10)
                   rq.1 None Live now)
        (put_user rq.1
           (set_coins (coins rq.2 - xp_mapping_get (form_difficulty form) 10)
                      rq.2) db).
Proof.
  unfold create_request, insert_request.
  destruct (get_current_user db sess) as [rq|]; [|by left].
  destruct method; [by left|]. case_decide; [by left|]. simpl.
  destruct (form_title form) as [t|]; [|by left].
  destruct (form_description form) as [d|]; [|by left].
  right. exists rq, t, d. repeat split; try done. lia.
Qed.

(** A request row that a call of [create_request] added was built from the
    submitted form. *)
Lemma create_request_new_row db sess method form now k r :
  requests db !! k = None →
  requests (db_of (create_request db sess method form now)) !! k = Some r →
  k = next_id (requests db) ∧
  r = mkRequest (form_title form) (form_description form)
                (xp_mapping_get (form_difficulty form) 10)
                (Some (default "Medium" (form_difficulty form)))
                (xp_mapping_get (form_difficulty form) 10)
                (default 0 (fst <$> get_current_user db sess)) None Live now.
Proof.
  intros Hk.
  destruct (create_request_cases db sess method form now)
    as [->|(rq & t & d & Hrq & _ & Ht & Hd & _ & ->)]; [congruence|].
  simpl. rewrite Hrq, Ht, Hd. simpl.
  destruct (decide (k = next_id (requests db))) as [->|Hne].
  - rewrite lookup_insert_eq. by intros [= <-].
  - rewrite lookup_insert_ne by done. congruence.
Qed.

(** C5: a request that [create_request] creates has [xp_value] equal to
    [reward_coins], both equal to the value the mapping gives the submitted
    difficulty label: 10 for 'Easy', 25 for 'Medium', 50 for 'Hard', and 10
    for any label outside the mapping, or none.  The row stores the
    submitted label; when none was submitted it stores 'Medium', the
    column default. *)
Theorem created_request_values db sess method form now k r :
  requests db !! k = None →
  requests (db_of (create_request db sess method form now)) !! k = Some r →
  xp_value r = reward_coins r ∧
  (form_difficulty form = Some "Easy" → reward_coins r = 10) ∧
  (form_difficulty form = Some "Medium" → reward_coins r = 25) ∧
  (form_difficulty form = Some "Hard" → reward_coins r = 50) ∧
  (form_difficulty form ≠ Some "Easy" →
   form_difficulty form ≠ Some "Medium" →
   form_difficulty form ≠ Some "Hard" → reward_coins r = 10) ∧
  difficulty r = Some (default "Medium" (form_difficulty form)).
Proof.
  intros Hk Hr.
  destruct (create_request_new_row _ _ _ _ _ _ _ Hk Hr) as [_ ->]. simpl.
  split; [done|]. split; [by intros ->|]. split; [by intros ->|].
  split; [by intros ->|]. split; [apply xp_mapping_get_unknown|done].
Qed.

Lemma created_request_values_witness :
  let db := initialize_app "pbkdf2" in
  let r := mkRequest (Some "Groceries") (Some "Two bags") 50 (Some "Hard") 50
                     1 None Live 1700000000 in
  difficulty r = Some "Hard" ∧ xp_value r = reward_coins r ∧
  reward_coins r = 50.
Proof.
  intros db r.
  destruct (created_request_values db (Some 1) POST
              (mkForm (Some "Groceries") (Some "Two bags") (Some "Hard"))
              1700000000 1 r)
    as (H1 & _ & _ & H3 & _ & H5); [reflexivity | reflexivity |].
  split; [exact H5|]. split; [exact H1|]. apply H3. reflexivity.
Defined.

(** C2, as the code has it: on a submitted creation form that carries a
    title and a description, a requester whose balance is at least the
    reward gets a new request row and a balance lower by exactly the
    reward; on any submitted form, a requester whose balance is below the
    reward is rejected, with no row added and every balance as before. *)
Theorem create_request_escrow db sess rq form now :
  get_current_user db sess = Some rq →
  let reward := xp_mapping_get (form_difficulty form) 10 in
  let o := create_request db sess POST form now in
  (is_Some (form_title form) → is_Some (form_description form) →
   reward ≤ coins rq.2 →
     ∃ k r,
       requests db !! k = None ∧
       requests (db_of o) = <[k := r]> (requests db) ∧
       reward_coins r = reward ∧ requester_id r = rq.1 ∧ status r = Live ∧
       (coins <$> users (db_of o) !! rq.1) = Some (coins rq.2 - reward) ∧
       (∀ j, j ≠ rq.1 → users (db_of o) !! j = users db !! j) ∧
       succeeded o = true) ∧
  (coins rq.2 < reward →
     db_of o = db ∧ succeeded o = false ∧
     o = Returned db [NotEnoughCoins reward] (Redirect To_create_request)).
Proof.
  intros Hu reward o. split.
  - intros [t Ht] [d Hd] Hc. subst o.
    rewrite (create_request_funded _ _ _ _ _ _ _ Hu Ht Hd Hc). simpl.
    eexists _, _. split; [apply next_id_fresh|]. split; [reflexivity|].
    simpl. repeat split.
    + by rewrite lookup_insert_eq.
    + intros j Hj. by rewrite lookup_insert_ne.
  - intros Hc. subst o. rewrite (create_request_short _ _ _ _ _ Hu Hc). done.
Qed.

Lemma create_request_escrow_witness :
  let db := initialize_app "pbkdf2" in
  (coins <$> users (db_of (create_request db (Some 2) POST
                             (mkForm (Some "Notes") (Some "Week 3")
                                     (Some "Medium")) 1700000000)) !! 2)
  = Some 75.
Proof.
  intros db.
  destruct (create_request_escrow db (Some 2) (2, mkUser "HelperB" "pbkdf2" 100 60)
              (mkForm (Some "Notes") (Some "Week 3") (Some "Medium"))
              1700000000 eq_refl) as [H _].
  destruct H as (k & r & _ & _ & _ & _ & _ & Hc & _);
    [by eexists | by eexists | vm_compute; discriminate |].
  exact Hc.
Defined.

(** C2 as the specification words it does not hold: RequesterA holds 500
    coins, enough for an 'Easy' request, but a submission without the
    title field creates no request and debits nothing, since the commit
    raises [IntegrityError]. *)
Lemma create_request_untitled :
  let db := initialize_app "pbkdf2" in
  let form := mkForm None (Some "Two bags") (Some "Easy") in
  let o := create_request db (Some 1) POST form 10 in
  get_current_user db (Some 1)
    = Some (1, mkUser "RequesterA" "pbkdf2" 500 120) ∧
  xp_mapping_get (form_difficulty form) 10 ≤ 500 ∧
  o = Raised db IntegrityError ∧
  ¬ (∃ k r, requests db !! k = None ∧ requests (db_of o) !! k = Some r) ∧
  (coins <$> users (db_of o) !! 1) = Some 500.
Proof.
  intros db form o.
  assert (Ho : o = Raised db IntegrityError) by reflexivity.
  split; [reflexivity|]. split; [vm_compute; discriminate|].
  split; [exact Ho|]. split; [|reflexivity].
  clearbody o. subst o. intros (k & r & Hk & Hr).
  cbn [db_of] in Hr. congruence.
Qed.

(** ** Acceptance *)

(** Splits a goal along the branches of the route it mentions. *)
Ltac route_split :=
  repeat first
    [ progress simplify_eq/=
    | case_decide
    | match goal with
      | |- context [match ?x with _ => _ end] =>
          is_var x; destruct x
      | |- context [match ?x with _ => _ end] =>
          lazymatch x with
          | decide _ => fail
          | _ => destruct x eqn:?
          end
      end ].

Lemma accept_task_accepts db sess rid r h :
  requests db !! rid = Some r → get_current_user db sess = Some h →
  status r = Live → requester_id r ≠ h.1 →
  accept_task db sess rid =
    Returned (put_request rid (set_status Accepted (set_helper_id (Some h.1) r)) db)
             [TaskAccepted (title r)] (Redirect To_index).
Proof.
  intros Hr Hh Hs Hne. unfold accept_task. rewrite Hr, Hh.
  repeat case_decide; done.
Qed.

Lemma accept_task_rejects db sess rid :
  succeeded (accept_task db sess rid) = false →
  db_of (accept_task db sess rid) = db.
Proof. unfold accept_task. route_split; done. Qed.

(** C6: for an acting user, [accept_task] goes through exactly when the
    request exists, is 'Live' and was posted by someone else; the actor then
    is the request's helper and the status is 'Accepted'.  Accepting one's
    own request is always rejected, and a rejected call changes nothing. *)
Theorem accept_task_spec db sess rid h :
  get_current_user db sess = Some h →
  let o := accept_task db sess rid in
  (succeeded o = true ↔
     ∃ r, requests db !! rid = Some r ∧ status r = Live ∧
          requester_id r ≠ h.1) ∧
  (succeeded o = true →
     ∃ r r', requests db !! rid = Some r ∧
       requests (db_of o) = <[rid := r']> (requests db) ∧
       r' = set_status Accepted (set_helper_id (Some h.1) r) ∧
       helper_id r' = Some h.1 ∧ status r' = Accepted ∧
       users (db_of o) = users db ∧ messages (db_of o) = messages db) ∧
  (∀ r, requests db !! rid = Some r → requester_id r = h.1 →
     succeeded o = false) ∧
  (succeeded o = false → db_of o = db).
Proof.
  intros Hh o.
  assert (Hiff : succeeded o = true ↔
            ∃ r, requests db !! rid = Some r ∧ status r = Live ∧
                 requester_id r ≠ h.1).
  { subst o. split.
    - unfold accept_task. rewrite Hh.
      destruct (requests db !! rid) as [r|]; [|done].
      repeat case_decide; simpl; try done.
      intros _. exists r. split; [done|]. split; [|done].
      by destruct (status r).
    - intros (r & Hr & Hs & Hne).
      by rewrite (accept_task_accepts _ _ _ _ _ Hr Hh Hs Hne). }
  split; [exact Hiff|]. split; [|split].
  - intros Hok. apply Hiff in Hok as (r & Hr & Hs & Hne).
    exists r, (set_status Accepted (set_helper_id (Some h.1) r)).
    subst o. rewrite (accept_task_accepts _ _ _ _ _ Hr Hh Hs Hne). done.
  - intros r Hr Hown. apply not_true_is_false. intros E.
    apply Hiff in E as (r' & Hr' & _ & Hne). congruence.
  - apply accept_task_rejects.
Qed.

Lemma accept_task_spec_witness :
  let db :=
    run (initialize_app "pbkdf2")
        (Create_request (Some 1) POST
           (mkForm (Some "Groceries") (Some "Two bags") (Some "Easy")) 10) in
  succeeded (accept_task db (Some 2) 1) = true ∧
  succeeded (accept_task db (Some 1) 1) = false.
Proof.
  intros db. split.
  - apply (accept_task_spec db (Some 2) 1
             (2, mkUser "HelperB" "pbkdf2" 100 60) eq_refl).
    eexists. split; [reflexivity|]. split; [reflexivity|]. discriminate.
  - refine (proj1 (proj2 (proj2 (accept_task_spec db (Some 1) 1
             (1, mkUser "RequesterA" "pbkdf2" 490 120) eq_refl))) _ eq_refl eq_refl).
Defined.

(** ** The status only moves forward *)

(** The row [k] held [r] before the call and afterwards either still holds
    [r], or is the addressed row, was in [from] and is now in [to]. *)
Definition moves (from to : Status) (rid k : Z) (r : Request) (o : Outcome)
    : Prop :=
  requests (db_of o) !! k = Some r ∨
  (k = rid ∧ status r = from ∧
   ∃ r', requests (db_of o) !! k = Some r' ∧ status r' = to).

Lemma put_request_moves from to rid k r r0 r' db o :
  requests db !! k = Some r → requests db !! rid = Some r0 →
  status r0 = from → status r' = to →
  db_of o = put_request rid r' db ∨
    (∃ ku u, db_of o = put_request rid r' (put_user ku u db)) →
  moves from to rid k r o.
Proof.
  intros Hk Hrid Hf Ht Ho. unfold moves.
  assert (Hreq : requests (db_of o) = <[rid := r']> (requests db)).
  { destruct Ho as [->|(ku & u & ->)]; done. }
  rewrite Hreq. destruct (decide (k = rid)) as [->|Hne].
  - right. split; [done|]. split; [congruence|].
    exists r'. by rewrite lookup_insert_eq.
  - left. by rewrite lookup_insert_ne.
Qed.

Lemma accept_task_moves db sess rid k r :
  requests db !! k = Some r →
  moves Live Accepted rid k r (accept_task db sess rid).
Proof.
  intros Hk. unfold accept_task.
  destruct (requests db !! rid) as [r0|] eqn:Hrid; [|by left].
  case_decide; [by left|].
  destruct (get_current_user db sess) as [h|]; [|by left].
  case_decide; [by left|].
  assert (status r0 = Live) by (by destruct (status r0)).
  eapply put_request_moves; eauto; reflexivity.
Qed.

Lemma helper_confirm_moves db sess rid k r :
  requests db !! k = Some r →
  moves Accepted Confirmed_By_Helper rid k r (helper_confirm db sess rid).
Proof.
  intros Hk. unfold helper_confirm.
  destruct (requests db !! rid) as [r0|] eqn:Hrid; [|by left].
  destruct (get_current_user db sess) as [h|]; [|by left].
  case_decide as Hg; [by left|].
  assert (status r0 = Accepted).
  { destruct (decide (status r0 = Accepted)); [done|]. destruct Hg. by right. }
  eapply put_request_moves; eauto; reflexivity.
Qed.

Lemma requester_approve_moves db sess rid k r :
  requests db !! k = Some r →
  moves Confirmed_By_Helper Completed rid k r
        (requester_approve db sess rid).
Proof.
  intros Hk. unfold requester_approve.
  destruct (requests db !! rid) as [r0|] eqn:Hrid; [|by left].
  destruct (get_current_user db sess) as [rq|]; [|by left].
  case_decide as Hg; [by left|].
  assert (status r0 = Confirmed_By_Helper).
  { destruct (decide (status r0 = Confirmed_By_Helper)); [done|].
    destruct Hg. by right. }
  destruct (helper_id r0) as [hid|]; [destruct (users db !! hid)|];
    eapply put_request_moves; eauto; reflexivity.
Qed.

Lemma moves_unchanged from to rid k r o :
  moves from to rid k r o → status r ≠ from →
  requests (db_of o) !! k = Some r.
Proof. intros [?|(_ & ? & _)] ?; done. Qed.

Lemma moves_step from to rid k r o :
  status_next from to → moves from to rid k r o →
  ∃ r', requests (db_of o) !! k = Some r' ∧
        (r' = r ∨ status_next (status r) (status r')).
Proof.
  intros Hn [?|(_ & Hf & r' & Hr' & Ht)]; [by eauto|].
  exists r'. split; [done|]. right. by rewrite Hf, Ht.
Qed.

Lemma create_request_keeps db sess method form now k r :
  requests db !! k = Some r →
  requests (db_of (create_request db sess method form now)) !! k = Some r.
Proof.
  intros Hk.
  destruct (create_request_cases db sess method form now)
    as [->|(rq & t & d & _ & _ & _ & _ & _ & ->)]; [done|].
  simpl. rewrite lookup_insert_ne; [done|].
  intros <-. by rewrite next_id_fresh in Hk.
Qed.

Lemma register_user_requests db name pw_hash :
  requests (register_user db name pw_hash) = requests db.
Proof. unfold register_user. by destruct (filter _ _). Qed.

Lemma send_message_requests db sess rid text now :
  requests (db_of (send_message db sess rid text now)) = requests db.
Proof. unfold send_message. route_split; done. Qed.

Lemma run_status_step db a k r :
  requests db !! k = Some r →
  ∃ r', requests (run db a) !! k = Some r' ∧
        (r' = r ∨ status_next (status r) (status r')).
Proof.
  intros Hk. destruct a; simpl.
  - rewrite register_user_requests. eauto.
  - exists r. split; [|by left]. by apply create_request_keeps.
  - eapply moves_step; [|by apply accept_task_moves]. constructor.
  - eapply moves_step; [|by apply helper_confirm_moves]. constructor.
  - eapply moves_step; [|by apply requester_approve_moves]. constructor.
  - rewrite send_message_requests. eauto.
Qed.

Lemma runs_status_forward acts : ∀ db k r,
  requests db !! k = Some r →
  ∃ r', requests (foldl run db acts) !! k = Some r' ∧
        rtc status_next (status r) (status r').
Proof.
  induction acts as [|a acts IH]; intros db k r Hk; simpl.
  - exists r. split; [done|]. apply rtc_refl.
  - destruct (run_status_step db a k r Hk) as (r1 & Hr1 & Hst).
    destruct (IH _ _ _ Hr1) as (r' & Hr' & Hrtc).
    exists r'. split; [done|].
    destruct Hst as [->|Hn]; [done|]. by eapply rtc_l.
Qed.

Lemma requester_approve_unconfirmed db sess rid r :
  requests db !! rid = Some r → status r ≠ Confirmed_By_Helper →
  succeeded (requester_approve db sess rid) = false.
Proof.
  intros Hr Hs. unfold requester_approve. rewrite Hr.
  destruct (get_current_user db sess); [|done].
  case_decide as Hg; [done|]. destruct Hs.
  destruct (decide (status r = Confirmed_By_Helper)); [done|].
  destruct Hg. by right.
Qed.

(** C3: a request's status only moves forward along
    Live, Accepted, Confirmed_By_Helper, Completed.  [accept_task] changes a
    status only from 'Live' to 'Accepted', [helper_confirm] only from
    'Accepted' to 'Confirmed_By_Helper', [requester_approve] only from
    'Confirmed_By_Helper' to 'Completed'; invoked on a request in any other
    status each leaves the request as it was (approval before confirmation
    is rejected); and whatever requests are served afterwards, the status
    of a request is reached from its present one by forward steps. *)
Theorem status_moves_forward db sess rid k r :
  requests db !! k = Some r →
  moves Live Accepted rid k r (accept_task db sess rid) ∧
  moves Accepted Confirmed_By_Helper rid k r (helper_confirm db sess rid) ∧
  moves Confirmed_By_Helper Completed rid k r
        (requester_approve db sess rid) ∧
  (status r ≠ Live →
     requests (db_of (accept_task db sess rid)) !! k = Some r) ∧
  (status r ≠ Accepted →
     requests (db_of (helper_confirm db sess rid)) !! k = Some r) ∧
  (status r ≠ Confirmed_By_Helper →
     requests (db_of (requester_approve db sess rid)) !! k = Some r ∧
     succeeded (requester_approve db sess k) = false) ∧
  (∀ acts, ∃ r', requests (foldl run db acts) !! k = Some r' ∧
                 rtc status_next (status r) (status r')).
Proof.
  intros Hk.
  pose proof (accept_task_moves db sess rid k r Hk) as Ha.
  pose proof (helper_confirm_moves db sess rid k r Hk) as Hc.
  pose proof (requester_approve_moves db sess rid k r Hk) as Hp.
  repeat split; try done.
  - intros. by eapply moves_unchanged.
  - intros. by eapply moves_unchanged.
  - by eapply moves_unchanged.
  - by eapply requester_approve_unconfirmed.
  - intros acts. by apply runs_status_forward.
Qed.

Lemma status_moves_forward_witness :
  let db :=
    run (initialize_app "pbkdf2")
        (Create_request (Some 1) POST
           (mkForm (Some "Groceries") (Some "Two bags") (Some "Easy")) 10) in
  ∃ r', requests (foldl run db [Accept_task (Some 2) 1;
                                Requester_approve (Some 1) 1;
                                Helper_confirm (Some 2) 1]) !! 1 = Some r' ∧
        rtc status_next Live (status r').
Proof.
  intros db.
  refine (proj2 (proj2 (proj2 (proj2 (proj2 (proj2
    (status_moves_forward db None 1 1
       (mkRequest (Some "Groceries") (Some "Two bags") 10 (Some "Easy") 10
                  1 None Live 10) eq_refl)))))) _).
Defined.

(** ** Every request past Live has a helper *)

Lemma helpers_assigned_put_user db k u :
  helpers_assigned db → helpers_assigned (put_user k u db).
Proof.
  intros Hinv j r Hj Hs. destruct (Hinv j r Hj Hs) as (h & Hh & Hu).
  exists h. split; [done|]. simpl.
  destruct (decide (k = h)) as [->|Hne].
  - rewrite lookup_insert_eq. eauto.
  - by rewrite lookup_insert_ne.
Qed.

Lemma helpers_assigned_put_request db k r' :
  helpers_assigned db →
  (status r' ≠ Live → ∃ h, helper_id r' = Some h ∧ is_Some (users db !! h)) →
  helpers_assigned (put_request k r' db).
Proof.
  intros Hinv Hr' j r Hj Hs. simpl in Hj.
  destruct (decide (k = j)) as [->|Hne].
  - rewrite lookup_insert_eq in Hj. injection Hj as <-. by apply Hr'.
  - rewrite lookup_insert_ne in Hj by done. by apply (Hinv j r).
Qed.

Lemma helpers_assigned_put_message db k m :
  helpers_assigned db → helpers_assigned (put_message k m db).
Proof. intros Hinv j r Hj Hs. by apply (Hinv j r). Qed.

Lemma helpers_assigned_run db a :
  helpers_assigned db → helpers_assigned (run db a).
Proof.
  intros Hinv. destruct a as [name pw|sess method form now|sess rid|sess rid
                             |sess rid|sess rid text now]; simpl.
  - unfold register_user. destruct (filter _ _); [|done].
    by apply helpers_assigned_put_user.
  - destruct (create_request_cases db sess method form now)
      as [->|(rq & t & d & _ & _ & _ & _ & _ & ->)]; [done|].
    apply helpers_assigned_put_request; [|done].
    by apply helpers_assigned_put_user.
  - unfold accept_task.
    destruct (requests db !! rid) as [r|]; [|done].
    case_decide; [done|].
    destruct (get_current_user db sess) as [h|] eqn:Hh; [|done].
    case_decide; [done|]. simpl.
    apply helpers_assigned_put_request; [done|]. intros _.
    exists h.1. split; [done|].
    rewrite (get_current_user_lookup _ _ _ Hh). eauto.
  - unfold helper_confirm.
    destruct (requests db !! rid) as [r|] eqn:Hr; [|done].
    destruct (get_current_user db sess) as [h|] eqn:Hh; [|done].
    case_decide as Hg; [done|]. simpl.
    apply helpers_assigned_put_request; [done|]. intros _.
    apply (Hinv rid r Hr). intros Hs. apply Hg. right. by rewrite Hs.
  - unfold requester_approve.
    destruct (requests db !! rid) as [r|] eqn:Hr; [|done].
    destruct (get_current_user db sess) as [rq|]; [|done].
    case_decide as Hg; [done|].
    assert (Hs : status r ≠ Live).
    { intros Hs. apply Hg. right. by rewrite Hs. }
    destruct (Hinv rid r Hr Hs) as (h & Hh & hu & Hu). rewrite Hh, Hu. simpl.
    apply helpers_assigned_put_request.
    + by apply helpers_assigned_put_user.
    + intros _. exists h. split; [done|]. simpl.
      rewrite lookup_insert_eq. eauto.
  - unfold send_message.
    destruct text as [[|c text]|]; try done;
      destruct (requests db !! rid) as [r|]; try done.
    destruct (get_current_user db sess) as [cu|]; [|done].
    case_decide; [done|]. by apply helpers_assigned_put_message.
Qed.

Lemma reachable_helpers_assigned db : reachable db → helpers_assigned db.
Proof.
  induction 1 as [hp|db a _ IH].
  - intros k r Hk. simpl in Hk. by rewrite lookup_empty in Hk.
  - by apply helpers_assigned_run.
Qed.

(** ** Settlement *)

Lemma requester_approve_settled db sess rid r rq hid h :
  requests db !! rid = Some r → get_current_user db sess = Some rq →
  requester_id r = rq.1 → status r = Confirmed_By_Helper →
  helper_id r = Some hid → users db !! hid = Some h →
  requester_approve db sess rid =
    Returned
      (put_request rid (set_status Completed r)
         (put_user hid
            (mkUser (username h) (password_hash h)
                    (coins h + reward_coins r)
                    (experience_points h + xp_value r)) db))
      [ApprovalSuccessful (reward_coins r) (xp_value r)
         (get_karmic_rank (experience_points h + xp_value r))]
      (Redirect To_index).
Proof.
  intros Hr Hrq Hid Hs Hh Hu. unfold requester_approve.
  rewrite Hr, Hrq, Hh, Hu. case_decide as Hg; [|done].
  destruct Hg; done.
Qed.

Lemma requester_approve_completed db sess rid r :
  requests db !! rid = Some r → status r = Completed →
  db_of (requester_approve db sess rid) = db ∧
  succeeded (requester_approve db sess rid) = false.
Proof.
  intros Hr Hs. unfold requester_approve. rewrite Hr.
  destruct (get_current_user db sess); [|done].
  case_decide as Hg; [done|]. destruct Hg. right. by rewrite Hs.
Qed.

(** C1: when the requester of a request in 'Confirmed_By_Helper' approves
    it, the status becomes 'Completed', the assigned helper's coin balance
    grows by exactly [reward_coins] and the helper's experience points by
    exactly [xp_value], and nothing else changes; approving the now
    completed request again, by anyone, is rejected and changes no balance,
    no experience points and no status.  In every reachable state such a
    request has an assigned helper with a user row. *)
Theorem requester_approve_once db sess rid r rq :
  requests db !! rid = Some r →
  status r = Confirmed_By_Helper →
  get_current_user db sess = Some rq →
  requester_id r = rq.1 →
  (reachable db → ∃ hid, helper_id r = Some hid ∧ is_Some (users db !! hid)) ∧
  (∀ hid h, helper_id r = Some hid → users db !! hid = Some h →
    let o := requester_approve db sess rid in
    succeeded o = true ∧
    requests (db_of o) = <[rid := set_status Completed r]> (requests db) ∧
    (coins <$> users (db_of o) !! hid) = Some (coins h + reward_coins r) ∧
    (experience_points <$> users (db_of o) !! hid)
      = Some (experience_points h + xp_value r) ∧
    (∀ j, j ≠ hid → users (db_of o) !! j = users db !! j) ∧
    messages (db_of o) = messages db ∧
    (∀ sess', db_of (requester_approve (db_of o) sess' rid) = db_of o ∧
              succeeded (requester_approve (db_of o) sess' rid) = false)).
Proof.
  intros Hr Hs Hrq Hid. split.
  - intros Hreach.
    apply (reachable_helpers_assigned db Hreach rid r Hr). by rewrite Hs.
  - intros hid h Hh Hu.
    rewrite (requester_approve_settled _ _ _ _ _ _ _ Hr Hrq Hid Hs Hh Hu).
    simpl. rewrite lookup_insert_eq. simpl.
    repeat split; try done.
    + intros j Hj. by rewrite lookup_insert_ne.
    + eapply requester_approve_completed; [apply lookup_insert_eq|done].
    + eapply requester_approve_completed; [apply lookup_insert_eq|done].
Qed.

Lemma requester_approve_once_witness :
  let db :=
    run (run (run (initialize_app "pbkdf2")
      (Create_request (Some 1) POST
         (mkForm (Some "Groceries") (Some "Two bags") (Some "Medium")) 10))
      (Accept_task (Some 2) 1))
      (Helper_confirm (Some 2) 1) in
  let o := requester_approve db (Some 1) 1 in
  (coins <$> users db !! 2) = Some 100 ∧
  (coins <$> users (db_of o) !! 2) = Some 125 ∧
  (experience_points <$> users (db_of o) !! 2) = Some 85 ∧
  db_of (requester_approve (db_of o) (Some 1) 1) = db_of o.
Proof.
  intros db o.
  destruct (requester_approve_once db (Some 1) 1
              (mkRequest (Some "Groceries") (Some "Two bags") 25
                         (Some "Medium") 25 1 (Some 2) Confirmed_By_Helper 10)
              (1, mkUser "RequesterA" "pbkdf2" 475 120)
              eq_refl eq_refl eq_refl eq_refl) as [_ H].
  destruct (H 2 (mkUser "HelperB" "pbkdf2" 100 60) eq_refl eq_refl)
    as (_ & _ & Hc & Hx & _ & _ & Hagain).
  split; [reflexivity|]. split; [exact Hc|]. split; [exact Hx|].
  exact (proj1 (Hagain (Some 1))).
Defined.

(** ** Conservation of coins *)

Lemma escrow_open r : status r ≠ Completed → escrow r = reward_coins r.
Proof. intros Hs. unfold escrow. by case_decide. Qed.

Lemma total_supply_put_user db k u u' :
  users db !! k = Some u →
  total_supply (put_user k u' db) = total_supply db - coins u + coins u'.
Proof.
  intros Hk. unfold total_supply. simpl.
  rewrite (table_sum_insert_update coins _ k u' u Hk). lia.
Qed.

Lemma total_supply_put_request db k r r' :
  requests db !! k = Some r →
  total_supply (put_request k r' db) = total_supply db - escrow r + escrow r'.
Proof.
  intros Hk. unfold total_supply. simpl.
  rewrite (table_sum_insert_update escrow _ k r' r Hk). lia.
Qed.

Lemma total_supply_new_request db k r' :
  requests db !! k = None →
  total_supply (put_request k r' db) = total_supply db + escrow r'.
Proof.
  intros Hk. unfold total_supply. simpl.
  rewrite (table_sum_insert_fresh escrow _ k r' Hk). lia.
Qed.

Lemma create_request_conserves db sess method form now :
  total_supply (db_of (create_request db sess method form now))
  = total_supply db.
Proof.
  destruct (create_request_cases db sess method form now)
    as [->|(rq & t & d & Hrq & _ & _ & _ & _ & ->)]; [done|].
  rewrite total_supply_new_request by apply next_id_fresh.
  rewrite (total_supply_put_user db rq.1 rq.2)
    by exact (get_current_user_lookup _ _ _ Hrq).
  rewrite escrow_open by done. simpl. lia.
Qed.

Lemma accept_task_conserves db sess rid :
  total_supply (db_of (accept_task db sess rid)) = total_supply db.
Proof.
  unfold accept_task.
  destruct (requests db !! rid) as [r|] eqn:Hr; [|done].
  case_decide as Hs; [done|].
  destruct (get_current_user db sess) as [h|]; [|done].
  case_decide; [done|]. simpl.
  rewrite (total_supply_put_request db rid r) by done.
  rewrite !escrow_open; [simpl; lia|done|by rewrite Hs].
Qed.

Lemma helper_confirm_conserves db sess rid :
  total_supply (db_of (helper_confirm db sess rid)) = total_supply db.
Proof.
  unfold helper_confirm.
  destruct (requests db !! rid) as [r|] eqn:Hr; [|done].
  destruct (get_current_user db sess) as [h|]; [|done].
  case_decide as Hg; [done|]. simpl.
  rewrite (total_supply_put_request db rid r) by done.
  rewrite !escrow_open; [simpl; lia|done|].
  intros Hc. apply Hg. right. by rewrite Hc.
Qed.

Lemma requester_approve_conserves db sess rid :
  helpers_assigned db →
  total_supply (db_of (requester_approve db sess rid)) = total_supply db.
Proof.
  intros Hinv. unfold requester_approve.
  destruct (requests db !! rid) as [r|] eqn:Hr; [|done].
  destruct (get_current_user db sess) as [rq|]; [|done].
  case_decide as Hg; [done|].
  assert (Hs : status r = Confirmed_By_Helper).
  { destruct (decide (status r = Confirmed_By_Helper)); [done|].
    destruct Hg. by right. }
  destruct (Hinv rid r Hr) as (hid & Hh & h & Hu); [by rewrite Hs|].
  rewrite Hh, Hu. simpl.
  rewrite (total_supply_put_request _ rid r) by done.
  rewrite (total_supply_put_user db hid h) by done.
  rewrite (escrow_open r) by (by rewrite Hs).
  unfold escrow. simpl. lia.
Qed.

(** The four operations of the request lifecycle. *)
Definition lifecycle (a : Action) : bool :=
  match a with
  | Create_request _ _ _ _ | Accept_task _ _ | Helper_confirm _ _
  | Requester_approve _ _ => true
  | Register _ _ | Send_message _ _ _ _ => false
  end.

Lemma run_lifecycle_conserves db a :
  helpers_assigned db → lifecycle a = true →
  total_supply (run db a) = total_supply db.
Proof.
  intros Hinv Ha. destruct a; simpl in *; try done.
  - apply create_request_conserves.
  - apply accept_task_conserves.
  - apply helper_confirm_conserves.
  - by apply requester_approve_conserves.
Qed.

Lemma runs_lifecycle_conserve acts : ∀ db,
  helpers_assigned db → forallb lifecycle acts = true →
  total_supply (foldl run db acts) = total_supply db.
Proof.
  induction acts as [|a acts IH]; intros db Hinv Hall; simpl; [done|].
  simpl in Hall. apply andb_true_iff in Hall as [Ha Hall].
  rewrite IH; [|by apply helpers_assigned_run|done].
  by apply run_lifecycle_conserves.
Qed.

(** C10: coins are conserved.  The sum of all coin balances plus the
    rewards of the requests that are not 'Completed' is the same after
    [create_request], [accept_task] and [helper_confirm] as before, and in
    every reachable state also after [requester_approve]; so it is the same
    after any sequence of lifecycle operations served from a reachable
    state. *)
Theorem coins_conserved db :
  (∀ sess method form now,
     total_supply (db_of (create_request db sess method form now))
       = total_supply db) ∧
  (∀ sess rid,
     total_supply (db_of (accept_task db sess rid)) = total_supply db) ∧
  (∀ sess rid,
     total_supply (db_of (helper_confirm db sess rid)) = total_supply db) ∧
  (reachable db → ∀ sess rid,
     total_supply (db_of (requester_approve db sess rid)) = total_supply db) ∧
  (reachable db → ∀ acts, forallb lifecycle acts = true →
     total_supply (foldl run db acts) = total_supply db).
Proof.
  split; [intros; apply create_request_conserves|].
  split; [intros; apply accept_task_conserves|].
  split; [intros; apply helper_confirm_conserves|].
  split.
  - intros Hreach sess rid. apply requester_approve_conserves.
    by apply reachable_helpers_assigned.
  - intros Hreach acts Hall. apply runs_lifecycle_conserve; [|done].
    by apply reachable_helpers_assigned.
Qed.

Lemma coins_conserved_witness :
  let db :=
    run (run (run (initialize_app "pbkdf2")
      (Create_request (Some 1) POST
         (mkForm (Some "Groceries") (Some "Two bags") (Some "Medium")) 10))
      (Accept_task (Some 2) 1))
      (Helper_confirm (Some 2) 1) in
  total_supply db = 600 ∧
  total_supply (db_of (requester_approve db (Some 1) 1)) = total_supply db.
Proof.
  intros db. split; [reflexivity|].
  refine (proj1 (proj2 (proj2 (proj2 (coins_conserved db)))) _ (Some 1) 1).
  subst db. repeat apply reachable_step. apply reachable_init.
Defined.

(** ** Chat *)

Lemma StronglySorted_mono {A} (R S : A → A → Prop) l :
  (∀ x y, R x y → S x y) → StronglySorted R l → StronglySorted S l.
Proof.
  intros HRS. induction 1 as [|x l _ IH Hx]; constructor; [done|].
  eapply Forall_impl; [exact Hx|]. intros y. apply HRS.
Qed.

Lemma messages_of_sorted db rid :
  StronglySorted (λ m n : Z * Message, msg_timestamp m.2 ≤ msg_timestamp n.2)
                 (messages_of db rid).
Proof.
  unfold messages_of.
  eapply StronglySorted_mono; [|apply sort_by_sorted].
  - intros m n H. simpl in H. by apply Z.leb_le.
  - intros m n. rewrite !Z.leb_le. lia.
  - intros m n p. rewrite !Z.leb_le. lia.
Qed.

Lemma messages_of_perm db rid :
  messages_of db rid ≡ₚ
  filter (λ m, msg_request_id m.2 = rid) (map_to_list (messages db)).
Proof. apply sort_by_perm. Qed.

Lemma elem_of_messages_of db rid k m :
  (k, m) ∈ messages_of db rid ↔
  messages db !! k = Some m ∧ msg_request_id m = rid.
Proof.
  rewrite messages_of_perm, list_elem_of_filter, elem_of_map_to_list.
  simpl. tauto.
Qed.

Lemma send_message_sends db sess rid r cu text now :
  requests db !! rid = Some r → get_current_user db sess = Some cu →
  requester_id r = cu.1 ∨ helper_id r = Some cu.1 → text ≠ "" →
  send_message db sess rid (Some text) now =
    Returned (put_message (next_id (messages db))
                          (mkMessage rid cu.1 text now) db)
             [] (Redirect (To_chat_view rid)).
Proof.
  intros Hr Hcu Hp Ht. unfold send_message. rewrite Hr, Hcu.
  destruct text as [|c text]; [done|].
  case_decide as Hg; [|done]. destruct Hg, Hp; done.
Qed.

Lemma send_message_stranger db sess rid r cu content now :
  requests db !! rid = Some r → get_current_user db sess = Some cu →
  requester_id r ≠ cu.1 → helper_id r ≠ Some cu.1 →
  succeeded (send_message db sess rid content now) = false ∧
  db_of (send_message db sess rid content now) = db.
Proof.
  intros Hr Hcu H1 H2. unfold send_message. rewrite Hr, Hcu.
  destruct content as [[|c text]|]; [done| |done].
  case_decide as Hg; [done|]. destruct Hg. done.
Qed.

Lemma send_message_empty db sess rid content now :
  content = None ∨ content = Some "" →
  send_message db sess rid content now =
    Returned db [EmptyMessageOrNoTask] (Redirect (To_chat_view rid)).
Proof.
  intros [->| ->]; unfold send_message; by destruct (requests db !! rid).
Qed.

Lemma chat_view_participant db sess rid r cu :
  requests db !! rid = Some r → get_current_user db sess = Some cu →
  requester_id r = cu.1 ∨ helper_id r = Some cu.1 →
  ∃ partner,
    chat_view db sess rid =
      Returned db [] (Render (ChatPage cu (rid, r) (messages_of db rid)
                                       partner)).
Proof.
  intros Hr Hcu Hp. unfold chat_view. rewrite Hr, Hcu.
  case_decide as Hg; [destruct Hg, Hp; done|]. eauto.
Qed.

(** C7: on an existing request, a message with non-empty text sent by the
    requester or by the assigned helper is appended; a message from a user
    who is neither, and a message whose content is missing or empty, is
    rejected and no message row is created.  The messages [chat_view] shows
    a participant are those of the request in ascending timestamp order. *)
Theorem send_message_spec db sess rid now :
  (∀ r cu text,
     requests db !! rid = Some r → get_current_user db sess = Some cu →
     requester_id r = cu.1 ∨ helper_id r = Some cu.1 → text ≠ "" →
     let o := send_message db sess rid (Some text) now in
     let k := next_id (messages db) in
     succeeded o = true ∧ messages db !! k = None ∧
     messages (db_of o) = <[k := mkMessage rid cu.1 text now]> (messages db) ∧
     (k, mkMessage rid cu.1 text now) ∈ messages_of (db_of o) rid) ∧
  (∀ r cu content,
     requests db !! rid = Some r → get_current_user db sess = Some cu →
     requester_id r ≠ cu.1 → helper_id r ≠ Some cu.1 →
     succeeded (send_message db sess rid content now) = false ∧
     db_of (send_message db sess rid content now) = db) ∧
  (∀ content, content = None ∨ content = Some "" →
     succeeded (send_message db sess rid content now) = false ∧
     db_of (send_message db sess rid content now) = db) ∧
  (∀ r cu,
     requests db !! rid = Some r → get_current_user db sess = Some cu →
     requester_id r = cu.1 ∨ helper_id r = Some cu.1 →
     ∃ partner,
       chat_view db sess rid =
         Returned db []
           (Render (ChatPage cu (rid, r) (messages_of db rid) partner))) ∧
  StronglySorted (λ m n : Z * Message, msg_timestamp m.2 ≤ msg_timestamp n.2)
                 (messages_of db rid) ∧
  messages_of db rid ≡ₚ
    filter (λ m, msg_request_id m.2 = rid) (map_to_list (messages db)).
Proof.
  split; [|split; [|split; [|split; [|split]]]].
  - intros r cu text Hr Hcu Hp Ht o k. subst o k.
    rewrite (send_message_sends _ _ _ _ _ _ _ Hr Hcu Hp Ht). simpl.
    split; [done|]. split; [apply next_id_fresh|]. split; [done|].
    apply elem_of_messages_of. simpl. by rewrite lookup_insert_eq.
  - intros r cu content. apply send_message_stranger.
  - intros content Hc. by rewrite (send_message_empty _ _ _ _ _ Hc).
  - intros r cu. apply chat_view_participant.
  - apply messages_of_sorted.
  - apply messages_of_perm.
Qed.

Lemma send_message_spec_witness :
  let db :=
    run (run (initialize_app "pbkdf2")
      (Create_request (Some 1) POST
         (mkForm (Some "Groceries") (Some "Two bags") (Some "Medium")) 10))
      (Accept_task (Some 2) 1) in
  succeeded (send_message db (Some 2) 1 (Some "On my way") 20) = true ∧
  succeeded (send_message (run db (Register "Carol" "pbkdf2")) (Some 3) 1
                          (Some "Hello") 20) = false.
Proof.
  intros db. split.
  - refine (proj1 (proj1 (send_message_spec db (Some 2) 1 20)
      (mkRequest (Some "Groceries") (Some "Two bags") 25 (Some "Medium") 25
                 1 (Some 2) Accepted 10)
      (2, mkUser "HelperB" "pbkdf2" 100 60) "On my way"
      eq_refl eq_refl (or_intror eq_refl) _)).
    discriminate.
  - refine (proj1 (proj1 (proj2
      (send_message_spec (run db (Register "Carol" "pbkdf2")) (Some 3) 1 20))
      (mkRequest (Some "Groceries") (Some "Two bags") 25 (Some "Medium") 25
                 1 (Some 2) Accepted 10)
      (3, mkUser "Carol" "pbkdf2" 100 0) (Some "Hello")
      eq_refl eq_refl _ _)); simpl; [lia|congruence].
Defined.

(** ** Leaderboard *)

Lemma leaderboard_of_sorted all_users :
  ∃ ranked,
    leaderboard_of all_users = take 10 ranked ∧ ranked ≡ₚ all_users ∧
    StronglySorted (λ u v, key_leb (leader_key v) (leader_key u) = true)
                   ranked.
Proof.
  eexists. split; [reflexivity|]. split; [apply sort_by_perm|].
  apply (sort_by_sorted (λ u v, key_leb (leader_key v) (leader_key u))).
  - intros u v. apply key_leb_total.
  - intros u v w Huv Hvw. by eapply key_leb_trans.
Qed.

Lemma leaderboard_of_three l ia ib ic ha hb hc :
  l ≡ₚ [(ib, mkUser "b" hb 10 500); (ia, mkUser "a" ha 20 500);
        (ic, mkUser "c" hc 0 100)] →
  leaderboard_of l =
    [(ia, mkUser "a" ha 20 500); (ib, mkUser "b" hb 10 500);
     (ic, mkUser "c" hc 0 100)].
Proof.
  intros Hl. symmetry in Hl. apply permutations_Permutation in Hl.
  cbn in Hl.
  repeat (apply elem_of_cons in Hl as [->|Hl]); try reflexivity.
  by apply elem_of_nil in Hl.
Qed.

(** The comparison of the sort, on the columns of the two users. *)
Lemma leader_key_leb (u v : Z * User) :
  key_leb (leader_key v) (leader_key u) = true ↔
  experience_points v.2 < experience_points u.2 ∨
  (experience_points v.2 = experience_points u.2 ∧
   (coins v.2 < coins u.2 ∨
    (coins v.2 = coins u.2 ∧
     String.leb (username v.2) (username u.2) = true))).
Proof. unfold leader_key. apply key_leb_spec. Qed.

Lemma leaderboard_of_sorted_columns all_users :
  ∃ ranked,
    leaderboard_of all_users = take 10 ranked ∧ ranked ≡ₚ all_users ∧
    StronglySorted
      (λ u v : Z * User,
         experience_points v.2 < experience_points u.2 ∨
         (experience_points v.2 = experience_points u.2 ∧
          (coins v.2 < coins u.2 ∨
           (coins v.2 = coins u.2 ∧
            String.leb (username v.2) (username u.2) = true))))
      ranked.
Proof.
  destruct (leaderboard_of_sorted all_users) as (ranked & Ht & Hp & Hs).
  exists ranked. split; [done|]. split; [done|].
  eapply StronglySorted_mono; [|exact Hs].
  intros u v. apply leader_key_leb.
Qed.

(** C8: the leaderboard the dashboard shows is the list of all users sorted
    descending by the tuple (experience points, coin balance, username) and
    cut to its first 10 entries: of two users, the one with more
    experience points comes first; with equal experience, the one with
    more coins; with both equal, the one whose username is the greater.
    For users with the tuples (500, 10, "b"), (500, 20, "a") and
    (100, 0, "c"), in whatever order the table yields them, the order is
    a, b, c. *)
Theorem leaderboard_order :
  (∀ db sess cu, get_current_user db sess = Some cu →
     ∃ live mine rank,
       index db sess =
         Returned db []
           (Render (Dashboard cu live mine rank
                      (leaderboard_of (map_to_list (users db)))))) ∧
  (∀ all_users, ∃ ranked,
     leaderboard_of all_users = take 10 ranked ∧ ranked ≡ₚ all_users ∧
     StronglySorted
       (λ u v : Z * User,
          experience_points v.2 < experience_points u.2 ∨
          (experience_points v.2 = experience_points u.2 ∧
           (coins v.2 < coins u.2 ∨
            (coins v.2 = coins u.2 ∧
             String.leb (username v.2) (username u.2) = true))))
       ranked) ∧
  (∀ x1 c1 n1 x2 c2 n2,
     key_leb (x1, c1, n1) (x2, c2, n2) = true ↔
     x1 < x2 ∨ (x1 = x2 ∧ (c1 < c2 ∨ (c1 = c2 ∧ String.leb n1 n2 = true)))) ∧
  (∀ l ia ib ic ha hb hc,
     l ≡ₚ [(ib, mkUser "b" hb 10 500); (ia, mkUser "a" ha 20 500);
           (ic, mkUser "c" hc 0 100)] →
     map (λ u, username u.2) (leaderboard_of l) = ["a"; "b"; "c"]).
Proof.
  split; [|split; [|split]].
  - intros db sess cu Hcu. unfold index. rewrite Hcu. eauto.
  - apply leaderboard_of_sorted_columns.
  - intros. apply key_leb_spec.
  - intros l ia ib ic ha hb hc Hl.
    by rewrite (leaderboard_of_three _ _ _ _ _ _ _ Hl).
Qed.

Lemma leaderboard_order_witness :
  map (λ u, username u.2)
      (leaderboard_of [(1, mkUser "b" "h1" 10 500); (2, mkUser "a" "h2" 20 500);
                       (3, mkUser "c" "h3" 0 100)]) = ["a"; "b"; "c"].
Proof.
  refine (proj2 (proj2 (proj2 leaderboard_order)) _ 2 1 3 "h2" "h1" "h3" _).
  reflexivity.
Defined.

(** ** Requests without a resolved user *)

(** [index] and [create_request] test the current user before using it:
    [index] never raises, and [create_request] answers a visitor who is not
    logged in with the redirect to the login page. *)
Lemma guarded_routes_return db sess method form now :
  raises (index db sess) = false ∧
  (get_current_user db sess = None →
   index db sess = Returned db [] (Redirect To_login_signup) ∧
   create_request db sess method form now
     = Returned db [] (Redirect To_login_signup)).
Proof.
  unfold index, create_request.
  destruct (get_current_user db sess); [|done].
  split; done.
Qed.

(** [accept_task] reads [helper.id] without that test: it raises exactly
    when nobody is logged in and the request is 'Live'. *)
Lemma accept_task_raises db sess rid :
  raises (accept_task db sess rid) = true ↔
  get_current_user db sess = None ∧
  ∃ r, requests db !! rid = Some r ∧ status r = Live.
Proof.
  unfold accept_task.
  destruct (requests db !! rid) as [r|]; simpl.
  - case_decide as Hs; simpl.
    + split; [done|]. intros (_ & r' & [= <-] & Hr'). done.
    + destruct (get_current_user db sess) as [h|]; simpl.
      * case_decide; simpl; split; try done; by intros [? _].
      * split; [|done]. intros _. split; [done|]. exists r. split; [done|].
        by destruct (status r).
  - split; [done|]. by intros (_ & r' & ? & _).
Qed.

(** With a resolved user none of the routes raises; [requester_approve]
    needs the helper's row for that, which every reachable state has. *)
Lemma resolved_actor_returns db sess cu rid content now :
  get_current_user db sess = Some cu →
  raises (accept_task db sess rid) = false ∧
  raises (helper_confirm db sess rid) = false ∧
  raises (chat_view db sess rid) = false ∧
  raises (send_message db sess rid content now) = false ∧
  (helpers_assigned db → raises (requester_approve db sess rid) = false).
Proof.
  intros Hcu.
  unfold accept_task, helper_confirm, chat_view, send_message,
         requester_approve.
  rewrite Hcu. destruct (requests db !! rid) as [r|] eqn:Hr.
  - repeat split; try (repeat case_decide; done).
    + destruct content as [[|c text]|]; try done. by case_decide.
    + intros Hinv. case_decide as Hg; [done|].
      destruct (Hinv rid r Hr) as (hid & Hh & h & Hu).
      * intros Hs. apply Hg. right. by rewrite Hs.
      * by rewrite Hh, Hu.
  - repeat split; try done. by destruct content as [[|c text]|].
Qed.

(** A request past 'Live' whose helper row is missing: no sequence of
    requests produces such a state ([reachable_helpers_assigned]). *)
Definition db_missing_helper : DB :=
  mkDB {[1 := mkUser "RequesterA" "pbkdf2" 490 120]}
       {[1 := mkRequest (Some "Groceries") (Some "Two bags") 10 (Some "Easy")
                        10 1 (Some 7) Confirmed_By_Helper 10]}
       ∅.

(** C4, which the code does not meet: the rejections are reported by a
    notice and a redirect, but a call without a resolved user is not
    recovered.  After RequesterA has posted a request, a visitor who is not
    logged in makes [accept_task], [helper_confirm], [requester_approve],
    [chat_view] and [send_message] raise [AttributeError] on it.  And where
    the helper's row is missing, [requester_approve] commits the status
    'Completed' and then raises [UnboundLocalError]. *)
Theorem unresolved_actor_raises :
  let db :=
    run (initialize_app "pbkdf2")
        (Create_request (Some 1) POST
           (mkForm (Some "Groceries") (Some "Two bags") (Some "Easy")) 10) in
  reachable db ∧
  get_current_user db None = None ∧
  accept_task db None 1 = Raised db AttributeError ∧
  helper_confirm db None 1 = Raised db AttributeError ∧
  requester_approve db None 1 = Raised db AttributeError ∧
  chat_view db None 1 = Raised db AttributeError ∧
  send_message db None 1 (Some "On my way") 20 = Raised db AttributeError ∧
  ∃ db', requester_approve db_missing_helper (Some 1) 1
           = Raised db' UnboundLocalError ∧
         (status <$> requests db' !! 1) = Some Completed.
Proof.
  intros db. split.
  - subst db. apply reachable_step, reachable_init.
  - do 6 (split; [reflexivity|]). eexists. split; reflexivity.
Qed.

(** * Further properties *)

(** ** Consecutive keys *)

Lemma foldr_max_elem (k0 : Z) (ks : list Z) : foldr Z.max k0 ks ∈ k0 :: ks.
Proof.
  induction ks as [|k ks IH]; simpl; [apply list_elem_of_here|].
  destruct (Z.max_spec k (foldr Z.max k0 ks)) as [[_ ->]|[_ ->]].
  - apply elem_of_cons in IH as [->|IH].
    + apply list_elem_of_here.
    + by do 2 apply list_elem_of_further.
  - apply list_elem_of_further, list_elem_of_here.
Qed.

Lemma next_id_empty {A} (t : gmap Z A) : size t = 0%nat → next_id t = 1.
Proof.
  intros Hs. apply map_size_empty_inv in Hs as ->.
  unfold next_id. by rewrite map_to_list_empty.
Qed.

Lemma next_id_pred {A} (t : gmap Z A) :
  size t ≠ 0%nat → is_Some (t !! (next_id t - 1)).
Proof.
  intros Hs. unfold next_id.
  destruct (map fst (map_to_list t)) as [|k0 ks] eqn:E; simpl.
  - destruct Hs. apply map_size_empty_iff, map_to_list_empty_iff.
    by destruct (map_to_list t).
  - pose proof (foldr_max_elem k0 ks) as Hin. rewrite <- E in Hin.
    apply list_elem_of_In, in_map_iff in Hin as ([k x] & Hk & Hin).
    simpl in Hk. apply list_elem_of_In, elem_of_map_to_list in Hin.
    replace (foldr Z.max k0 ks + 1 - 1) with k by lia. eauto.
Qed.

Lemma dense_next_id {A} (t : gmap Z A) :
  dense t → next_id t = Z.of_nat (size t) + 1.
Proof.
  intros Hd. destruct (decide (size t = 0%nat)) as [Hs|Hs].
  - rewrite next_id_empty, Hs by done. done.
  - pose proof (next_id_pred t Hs) as Hp. apply Hd in Hp.
    assert (Hn : is_Some (t !! Z.of_nat (size t))) by (apply Hd; lia).
    apply next_id_above in Hn. lia.
Qed.

Lemma dense_insert_new {A} (t : gmap Z A) x :
  dense t → dense (<[next_id t := x]> t).
Proof.
  intros Hd k. rewrite lookup_insert_is_Some.
  rewrite map_size_insert_None by apply next_id_fresh.
  rewrite (dense_next_id t Hd), (Hd k). lia.
Qed.

Lemma dense_insert_update {A} (t : gmap Z A) k x :
  dense t → is_Some (t !! k) → dense (<[k := x]> t).
Proof.
  intros Hd Hk j. rewrite lookup_insert_is_Some.
  rewrite map_size_insert_Some by done. rewrite <- (Hd j).
  split; [intros [<-|[_ ?]]; done|]. intros Hj.
  destruct (decide (k = j)); [by left|by right].
Qed.

(** ** The reachable states are consistent *)

Lemma xp_mapping_get_values (difficulty : option string) :
  xp_mapping_get difficulty 10 = 10 ∨ xp_mapping_get difficulty 10 = 25 ∨
  xp_mapping_get difficulty 10 = 50.
Proof.
  destruct (decide (difficulty = Some "Easy")) as [->|?]; [by left|].
  destruct (decide (difficulty = Some "Medium")) as [->|?]; [by right; left|].
  destruct (decide (difficulty = Some "Hard")) as [->|?]; [by right; right|].
  left. by apply xp_mapping_get_unknown.
Qed.

Lemma request_ok_users db db' r :
  (∀ k, is_Some (users db !! k) → is_Some (users db' !! k)) →
  request_ok db r → request_ok db' r.
Proof. intros Hu [? ? ? ? ? ? ?]. split; auto. Qed.

Lemma message_ok_requests db db' m :
  (∀ k r, requests db !! k = Some r →
     ∃ r', requests db' !! k = Some r' ∧ requester_id r' = requester_id r ∧
           ∀ s, helper_id r = Some s → helper_id r' = Some s) →
  message_ok db m → message_ok db' m.
Proof.
  intros Hr [(r & Hk & Hp) ?]. split; [|done].
  destruct (Hr _ _ Hk) as (r' & Hk' & Hq & Hh).
  exists r'. split; [done|]. destruct Hp as [Hp|Hp]; [left|right]; auto.
  congruence.
Qed.

Lemma consistent_put_user_update db k u u' :
  consistent db → users db !! k = Some u →
  0 ≤ coins u' → 0 ≤ experience_points u' →
  consistent (put_user k u' db).
Proof.
  intros [Hdu Hdr Hdm Hsol Hreq Hmsg] Hk Hc Hx. split; simpl; try done.
  - apply dense_insert_update; eauto.
  - intros j v. destruct (decide (k = j)) as [->|Hne].
    + rewrite lookup_insert_eq. by intros [= <-].
    + rewrite lookup_insert_ne by done. apply Hsol.
  - intros j r Hj. eapply request_ok_users; [|by eapply Hreq]. simpl.
    intros i Hi. apply lookup_insert_is_Some.
    destruct (decide (k = i)); [by left|by right].
  - intros j m Hj. eapply message_ok_requests; [|by eapply Hmsg]. eauto.
Qed.

Lemma consistent_put_user_new db u' :
  consistent db → 0 ≤ coins u' → 0 ≤ experience_points u' →
  consistent (put_user (next_id (users db)) u' db).
Proof.
  intros [Hdu Hdr Hdm Hsol Hreq Hmsg] Hc Hx. split; simpl; try done.
  - by apply dense_insert_new.
  - intros j v. destruct (decide (next_id (users db) = j)) as [<-|Hne].
    + rewrite lookup_insert_eq. by intros [= <-].
    + rewrite lookup_insert_ne by done. apply Hsol.
  - intros j r Hj. eapply request_ok_users; [|by eapply Hreq]. simpl.
    intros i Hi. apply lookup_insert_is_Some.
    destruct (decide (next_id (users db) = i)); [by left|by right].
  - intros j m Hj. eapply message_ok_requests; [|by eapply Hmsg]. eauto.
Qed.

Lemma consistent_put_request_update db k r r' :
  consistent db → requests db !! k = Some r → request_ok db r' →
  requester_id r' = requester_id r →
  (∀ s, helper_id r = Some s → helper_id r' = Some s) →
  consistent (put_request k r' db).
Proof.
  intros [Hdu Hdr Hdm Hsol Hreq Hmsg] Hk Hok Hq Hh. split; simpl; try done.
  - apply dense_insert_update; eauto.
  - intros j x. destruct (decide (k = j)) as [->|Hne].
    + rewrite lookup_insert_eq. intros [= <-].
      eapply request_ok_users; [|exact Hok]. done.
    + rewrite lookup_insert_ne by done. intros Hj.
      eapply request_ok_users; [|by eapply Hreq]. done.
  - intros j m Hj. eapply message_ok_requests; [|by eapply Hmsg]. simpl.
    intros i x Hi. destruct (decide (k = i)) as [->|Hne].
    + rewrite lookup_insert_eq. exists r'. simplify_eq. eauto.
    + rewrite lookup_insert_ne by done. eauto.
Qed.

Lemma consistent_put_request_new db r' :
  consistent db → request_ok db r' →
  consistent (put_request (next_id (requests db)) r' db).
Proof.
  intros [Hdu Hdr Hdm Hsol Hreq Hmsg] Hok. split; simpl; try done.
  - by apply dense_insert_new.
  - intros j x. destruct (decide (next_id (requests db) = j)) as [<-|Hne].
    + rewrite lookup_insert_eq. intros [= <-].
      eapply request_ok_users; [|exact Hok]. done.
    + rewrite lookup_insert_ne by done. intros Hj.
      eapply request_ok_users; [|by eapply Hreq]. done.
  - intros j m Hj. eapply message_ok_requests; [|by eapply Hmsg]. simpl.
    intros i x Hi. exists x. rewrite lookup_insert_ne; [done|].
    intros <-. by rewrite next_id_fresh in Hi.
Qed.

Lemma consistent_put_message_new db m' :
  consistent db → message_ok db m' →
  consistent (put_message (next_id (messages db)) m' db).
Proof.
  intros [Hdu Hdr Hdm Hsol Hreq Hmsg] Hok. split; simpl; try done.
  - by apply dense_insert_new.
  - intros j r Hj. eapply request_ok_users; [|by eapply Hreq]. done.
  - intros j x. destruct (decide (next_id (messages db) = j)) as [<-|Hne].
    + rewrite lookup_insert_eq. intros [= <-].
      eapply message_ok_requests; [|exact Hok]. eauto.
    + rewrite lookup_insert_ne by done. intros Hj.
      eapply message_ok_requests; [|by eapply Hmsg]. eauto.
Qed.

Lemma consistent_register_user db name pw_hash :
  consistent db → consistent (register_user db name pw_hash).
Proof.
  intros Hc. unfold register_user. destruct (filter _ _); [|done].
  by apply consistent_put_user_new.
Qed.

Lemma consistent_create_request db sess method form now :
  consistent db →
  consistent (db_of (create_request db sess method form now)).
Proof.
  intros Hc.
  destruct (create_request_cases db sess method form now)
    as [->|(rq & t & d & Hrq & _ & _ & _ & Hf & ->)]; [done|].
  pose proof (get_current_user_lookup _ _ _ Hrq) as Hu.
  destruct (users_solvent db Hc _ _ Hu) as [_ Hx].
  set (db1 := put_user rq.1 _ db).
  assert (Hc1 : consistent db1).
  { eapply consistent_put_user_update; eauto. simpl. lia. }
  apply (consistent_put_request_new db1); [done|].
  split; simpl; try done.
  - apply xp_mapping_get_values.
  - destruct (form_difficulty form); [by left|by right].
  - rewrite lookup_insert_eq. eauto.
Qed.

Lemma consistent_accept_task db sess rid :
  consistent db → consistent (db_of (accept_task db sess rid)).
Proof.
  intros Hc. unfold accept_task.
  destruct (requests db !! rid) as [r|] eqn:Hr; [|done].
  case_decide as Hs; [done|].
  destruct (get_current_user db sess) as [h|] eqn:Hh; [|done].
  case_decide as Hown; [done|]. simpl.
  destruct (requests_ok db Hc _ _ Hr) as [? ? ? ? Hlive ?].
  eapply consistent_put_request_update; eauto.
  - split; simpl; try done. congruence.
  - intros s Hsome. apply Hlive in Hs. congruence.
Qed.

Lemma consistent_helper_confirm db sess rid :
  consistent db → consistent (db_of (helper_confirm db sess rid)).
Proof.
  intros Hc. unfold helper_confirm.
  destruct (requests db !! rid) as [r|] eqn:Hr; [|done].
  destruct (get_current_user db sess) as [h|]; [|done].
  case_decide as Hg; [done|]. simpl.
  destruct (requests_ok db Hc _ _ Hr) as [? ? ? ? Hlive ?].
  assert (Hh : helper_id r = Some h.1).
  { destruct (decide (helper_id r = Some h.1)); [done|].
    destruct Hg. by left. }
  eapply consistent_put_request_update; eauto.
  split; simpl; try done. split; [congruence|done].
Qed.

Lemma consistent_requester_approve db sess rid :
  consistent db → consistent (db_of (requester_approve db sess rid)).
Proof.
  intros Hc. unfold requester_approve.
  destruct (requests db !! rid) as [r|] eqn:Hr; [|done].
  destruct (get_current_user db sess) as [rq|]; [|done].
  case_decide as Hg; [done|].
  assert (Hs : status r = Confirmed_By_Helper).
  { destruct (decide (status r = Confirmed_By_Helper)); [done|].
    destruct Hg. by right. }
  destruct (requests_ok db Hc _ _ Hr) as [Hrew Hxp ? ? Hlive ?].
  assert (Hh : helper_id r ≠ None).
  { intros Hn. apply Hlive in Hn. congruence. }
  assert (Hok : ∀ db', (∀ k, is_Some (users db !! k) →
                             is_Some (users db' !! k)) →
                       request_ok db' (set_status Completed r)).
  { intros db' Hu. split; simpl; auto. split; [done|congruence]. }
  destruct (helper_id r) as [hid|] eqn:Ehid; [|done].
  destruct (users db !! hid) as [h|] eqn:Hu; simpl.
  - destruct (users_solvent db Hc _ _ Hu) as [Hcoins Hexp].
    eapply (consistent_put_request_update (put_user hid _ db)); eauto.
    + eapply consistent_put_user_update; eauto; simpl; lia.
    + apply Hok. simpl. intros k Hk. apply lookup_insert_is_Some.
      destruct (decide (hid = k)); [by left|by right].
  - eapply consistent_put_request_update; eauto.
Qed.

Lemma consistent_send_message db sess rid text now :
  consistent db → consistent (db_of (send_message db sess rid text now)).
Proof.
  intros Hc. unfold send_message.
  destruct text as [[|c text]|]; try done;
    destruct (requests db !! rid) as [r|] eqn:Hr; try done.
  destruct (get_current_user db sess) as [cu|]; [|done].
  case_decide as Hg; [done|]. simpl.
  apply consistent_put_message_new; [done|]. split; simpl; [|done].
  exists r. split; [done|].
  destruct (decide (requester_id r = cu.1)); [by left|].
  destruct (decide (helper_id r = Some cu.1)); [by right|].
  destruct Hg. done.
Qed.

Lemma consistent_run db a : consistent db → consistent (run db a).
Proof.
  intros Hc. destruct a; simpl.
  - by apply consistent_register_user.
  - by apply consistent_create_request.
  - by apply consistent_accept_task.
  - by apply consistent_helper_confirm.
  - by apply consistent_requester_approve.
  - by apply consistent_send_message.
Qed.

Lemma initialize_app_tables hashed_pass :
  initialize_app hashed_pass =
    mkDB (<[2 := mkUser "HelperB" hashed_pass 100 60]>
            (<[1 := mkUser "RequesterA" hashed_pass 500 120]> ∅)) ∅ ∅.
Proof. reflexivity. Qed.

Lemma consistent_initialize_app hashed_pass :
  consistent (initialize_app hashed_pass).
Proof.
  rewrite initialize_app_tables. split; simpl.
  - intros k. rewrite !lookup_insert_is_Some, lookup_empty, is_Some_alt.
    rewrite !map_size_insert_None, map_size_empty; [lia|done|done].
  - intros k. rewrite lookup_empty, is_Some_alt, map_size_empty. simpl. lia.
  - intros k. rewrite lookup_empty, is_Some_alt, map_size_empty. simpl. lia.
  - intros k u Hk.
    apply lookup_insert_Some in Hk as [[_ <-]|[_ Hk]]; [simpl; lia|].
    apply lookup_insert_Some in Hk as [[_ <-]|[_ Hk]]; [simpl; lia|].
    by rewrite lookup_empty in Hk.
  - intros k r Hk. by rewrite lookup_empty in Hk.
  - intros k m Hk. by rewrite lookup_empty in Hk.
Qed.

Lemma reachable_consistent db : reachable db → consistent db.
Proof.
  induction 1 as [hp|db a _ IH].
  - apply consistent_initialize_app.
  - by apply consistent_run.
Qed.

Lemma reachable_db_in_progress : reachable db_in_progress.
Proof. unfold db_in_progress. repeat apply reachable_step. apply reachable_init. Qed.

(** X1: in every reachable state no coin balance and no experience total is
    negative: [create_request] only debits a balance that covers the reward,
    and the rewards credited are positive. *)
Theorem balances_never_negative db k u :
  reachable db → users db !! k = Some u →
  0 ≤ coins u ∧ 0 ≤ experience_points u.
Proof.
  intros Hreach Hk. by apply (users_solvent db (reachable_consistent db Hreach) k).
Qed.

Lemma balances_never_negative_witness :
  ∃ u, users db_in_progress !! 1 = Some u ∧
       0 ≤ coins u ∧ 0 ≤ experience_points u.
Proof.
  exists (mkUser "RequesterA" "pbkdf2" 475 120). split; [reflexivity|].
  exact (balances_never_negative db_in_progress 1
           (mkUser "RequesterA" "pbkdf2" 475 120)
           reachable_db_in_progress eq_refl).
Defined.

(** A request submitted without the difficulty field is stored as 'Medium',
    the column default, with the reward 10 of an unknown label. *)
Lemma medium_by_default :
  let db := run (initialize_app "pbkdf2")
              (Create_request (Some 1) POST
                 (mkForm (Some "Groceries") (Some "Two bags") None) 10) in
  reachable db ∧
  requests db !! 1 =
    Some (mkRequest (Some "Groceries") (Some "Two bags") 10 (Some "Medium")
                    10 1 None Live 10).
Proof.
  intros db. split; [|reflexivity].
  subst db. apply reachable_step, reachable_init.
Qed.

(** X2: every request of a reachable state is well formed: it has a title,
    a description and a difficulty; its reward is 10, 25 or 50 and equals
    its [xp_value]; the reward is what [XP_MAPPING] gives its difficulty,
    or it is 10 on a request stored as 'Medium' (one submitted without a
    difficulty); its requester is a user; it has no helper exactly while
    it is 'Live'; and its helper is a user other than the requester. *)
Theorem requests_well_formed db k r :
  reachable db → requests db !! k = Some r →
  is_Some (title r) ∧ is_Some (description r) ∧ is_Some (difficulty r) ∧
  (reward_coins r = 10 ∨ reward_coins r = 25 ∨ reward_coins r = 50) ∧
  xp_value r = reward_coins r ∧
  (reward_coins r = xp_mapping_get (difficulty r) 10 ∨
   (difficulty r = Some "Medium" ∧ reward_coins r = 10)) ∧
  is_Some (users db !! requester_id r) ∧
  (helper_id r = None ↔ status r = Live) ∧
  (∀ h, helper_id r = Some h →
     h ≠ requester_id r ∧ is_Some (users db !! h)).
Proof.
  intros Hreach Hk.
  destruct (requests_ok db (reachable_consistent db Hreach) k r Hk)
    as [H1 H2 H3 H4 H5 H6 (Ht & Hd & Hf)].
  repeat (split; [done|]). intros h Hh. split; [congruence|].
  destruct (reachable_helpers_assigned db Hreach k r Hk) as (h' & Hh' & Hu).
  - intros Hs. apply H5 in Hs. congruence.
  - congruence.
Qed.

Lemma requests_well_formed_witness :
  let r := mkRequest (Some "Groceries") (Some "Two bags") 25 (Some "Medium")
                     25 1 (Some 2) Accepted 10 in
  xp_value r = reward_coins r ∧
  (2 ≠ requester_id r ∧ is_Some (users db_in_progress !! 2)).
Proof.
  intros r.
  destruct (requests_well_formed db_in_progress 1 r
              reachable_db_in_progress eq_refl)
    as (_ & _ & _ & _ & H2 & _ & _ & _ & H6).
  split; [exact H2|]. exact (H6 2 eq_refl).
Defined.

(** X3: every message of a reachable state has non-empty content, belongs
    to an existing request and was sent by that request's requester or
    helper, who is a user. *)
Theorem messages_from_participants db k m :
  reachable db → messages db !! k = Some m →
  content m ≠ "" ∧
  ∃ r, requests db !! msg_request_id m = Some r ∧
       (sender_id m = requester_id r ∨ helper_id r = Some (sender_id m)) ∧
       is_Some (users db !! sender_id m).
Proof.
  intros Hreach Hk. pose proof (reachable_consistent db Hreach) as Hc.
  destruct (messages_ok db Hc k m Hk) as [(r & Hr & Hp) Hne].
  split; [done|]. exists r. split; [done|]. split; [done|].
  destruct Hp as [->|Hh].
  - apply (ok_requester db r (requests_ok db Hc _ _ Hr)).
  - destruct (reachable_helpers_assigned db Hreach _ r Hr) as (h & Hh' & Hu).
    + intros Hs. apply (ok_live db r (requests_ok db Hc _ _ Hr)) in Hs.
      congruence.
    + congruence.
Qed.

Lemma messages_from_participants_witness :
  ∃ r, requests db_in_progress !! 1 = Some r ∧
       (2 = requester_id r ∨ helper_id r = Some 2) ∧
       is_Some (users db_in_progress !! 2).
Proof.
  exact (proj2 (messages_from_participants db_in_progress 1
                  (mkMessage 1 2 "On my way" 20)
                  reachable_db_in_progress eq_refl)).
Defined.

(** X4: in every reachable state the keys of each table are 1, 2, ... up to
    its number of rows, so an insert receives that number plus one, and
    [get_current_user] resolves a session exactly to the row of its
    [user_id]: no user has the falsy key 0. *)
Theorem keys_are_consecutive db :
  reachable db →
  dense (users db) ∧ dense (requests db) ∧ dense (messages db) ∧
  next_id (users db) = Z.of_nat (size (users db)) + 1 ∧
  next_id (requests db) = Z.of_nat (size (requests db)) + 1 ∧
  next_id (messages db) = Z.of_nat (size (messages db)) + 1 ∧
  ∀ uid, get_current_user db (Some uid) = (λ u, (uid, u)) <$> users db !! uid.
Proof.
  intros Hreach. destruct (reachable_consistent db Hreach) as [Hu Hr Hm _ _ _].
  repeat (split; [done || by apply dense_next_id|]).
  intros uid. unfold get_current_user. case_decide as H0.
  - subst uid. destruct (users db !! 0) eqn:E; [|done].
    assert (is_Some (users db !! 0)) as Hs by eauto. apply Hu in Hs. lia.
  - by destruct (users db !! uid).
Qed.

Lemma keys_are_consecutive_witness :
  next_id (users db_in_progress) = 3 ∧
  next_id (requests db_in_progress) = 2 ∧
  next_id (messages db_in_progress) = 2.
Proof.
  destruct (keys_are_consecutive db_in_progress reachable_db_in_progress)
    as (_ & _ & _ & Hu & Hr & Hm & _).
  split; [exact Hu|]. split; [exact Hr|exact Hm].
Defined.

(** ** How a served request changes the user table *)

Lemma run_users_change db a : users_change db a (users (run db a)).
Proof.
  destruct a as [name pw|sess method form now|sess rid|sess rid
                |sess rid|sess rid text now]; simpl.
  - unfold register_user. destruct (filter _ _); [|exact (users_same db _)].
    by eapply users_registered.
  - destruct (create_request_cases db sess method form now)
      as [->|(rq & t & d & Hrq & _ & _ & _ & _ & ->)];
      [exact (users_same db _)|].
    apply users_debited; [by eapply get_current_user_lookup|].
    pose proof (xp_mapping_get_values (form_difficulty form)). lia.
  - unfold accept_task. route_split; exact (users_same db _).
  - unfold helper_confirm. route_split; exact (users_same db _).
  - unfold requester_approve.
    destruct (requests db !! rid) as [r|] eqn:Hr; [|exact (users_same db _)].
    destruct (get_current_user db sess) as [rq|]; [|exact (users_same db _)].
    case_decide as Hg; [exact (users_same db _)|].
    assert (Hs : status r = Confirmed_By_Helper).
    { destruct (decide (status r = Confirmed_By_Helper)); [done|].
      destruct Hg. by right. }
    destruct (helper_id r) as [hid|]; [|exact (users_same db _)].
    destruct (users db !! hid) as [h|] eqn:Hu; [|exact (users_same db _)].
    simpl. by eapply (users_credited _ _ hid h rid r).
  - unfold send_message. route_split; exact (users_same db _).
Qed.

Lemma total_supply_new_user db k u :
  users db !! k = None →
  total_supply (put_user k u db) = total_supply db + coins u.
Proof.
  intros Hk. unfold total_supply. simpl.
  rewrite (table_sum_insert_fresh coins _ k u Hk). lia.
Qed.

Lemma send_message_conserves db sess rid text now :
  total_supply (db_of (send_message db sess rid text now)) = total_supply db.
Proof. unfold send_message. route_split; done. Qed.

Lemma send_message_users db sess rid text now :
  users (db_of (send_message db sess rid text now)) = users db.
Proof. unfold send_message. route_split; done. Qed.

Lemma census_run db a :
  helpers_assigned db → census db → census (run db a).
Proof.
  unfold census. intros Hinv Hc. destruct (lifecycle a) eqn:El.
  - rewrite (run_lifecycle_conserves db a Hinv El), Hc.
    destruct (run_users_change db a)
      as [|name pw ->|k u c Hk _|k u rid r Hk _ _]; try done;
      by rewrite map_size_insert_Some by eauto.
  - destruct a as [name pw| | | | |sess rid text now]; try done; simpl.
    + unfold register_user. destruct (filter _ _); [|done].
      rewrite total_supply_new_user by apply next_id_fresh. simpl.
      rewrite map_size_insert_None by apply next_id_fresh. lia.
    + rewrite send_message_conserves, Hc.
      by rewrite send_message_users.
Qed.

(** X5: coins enter the system only with a user: in every reachable state
    the balances plus the rewards held by uncompleted requests add up to
    100 per user, plus the 400 the two default users hold beyond that. *)
Theorem coins_minted_on_registration db :
  reachable db →
  total_supply db = 400 + 100 * Z.of_nat (size (users db)).
Proof.
  induction 1 as [hp|db a Hreach IH].
  - rewrite initialize_app_tables. unfold total_supply, table_sum. simpl.
    rewrite !map_size_insert_None, map_size_empty by done.
    rewrite !map_fold_insert_L, !map_fold_empty by (done || intros; lia).
    simpl. lia.
  - apply census_run; [|done]. by apply reachable_helpers_assigned.
Qed.

Lemma coins_minted_on_registration_witness :
  total_supply (run db_in_progress (Register "Carol" "pbkdf2")) = 700.
Proof.
  refine (coins_minted_on_registration
            (run db_in_progress (Register "Carol" "pbkdf2")) _).
  apply reachable_step, reachable_db_in_progress.
Defined.

(** ** What a served request never changes *)

Lemma run_requests_change db a : requests_change db (requests (run db a)).
Proof.
  destruct a as [name pw|sess method form now|sess rid|sess rid
                |sess rid|sess rid text now]; simpl.
  - rewrite register_user_requests. constructor.
  - destruct (create_request_cases db sess method form now)
      as [->|(rq & t & d & _ & _ & _ & _ & _ & ->)];
      [exact (requests_same db)|].
    exact (requests_created db _).
  - unfold accept_task.
    destruct (requests db !! rid) as [r|] eqn:Hr; [|exact (requests_same db)].
    case_decide; [exact (requests_same db)|].
    destruct (get_current_user db sess) as [h|]; [|exact (requests_same db)].
    case_decide; [exact (requests_same db)|]. simpl.
    by apply requests_accepted.
  - unfold helper_confirm.
    destruct (requests db !! rid) as [r|] eqn:Hr; [|exact (requests_same db)].
    destruct (get_current_user db sess) as [h|]; [|exact (requests_same db)].
    case_decide as Hg; [exact (requests_same db)|]. simpl.
    apply requests_advanced; [done| |done].
    intros Hs. apply Hg. right. by rewrite Hs.
  - unfold requester_approve.
    destruct (requests db !! rid) as [r|] eqn:Hr; [|exact (requests_same db)].
    destruct (get_current_user db sess) as [rq|];
      [|exact (requests_same db)].
    case_decide as Hg; [exact (requests_same db)|].
    assert (Hs : status r ≠ Live).
    { intros Hs. apply Hg. right. by rewrite Hs. }
    destruct (helper_id r) as [hid|]; [destruct (users db !! hid)|]; simpl;
      by apply requests_advanced.
  - rewrite send_message_requests. constructor.
Qed.

Lemma run_request_row db a k r :
  requests db !! k = Some r →
  ∃ r', requests (run db a) !! k = Some r' ∧ row_evolves r r'.
Proof.
  intros Hk. unfold row_evolves.
  destruct (run_requests_change db a) as [|r0|rid r0 h Hr Hs|rid r0 s Hr Hs Hs'].
  - exists r. by repeat split.
  - exists r. rewrite lookup_insert_ne; [by repeat split|].
    intros <-. by rewrite next_id_fresh in Hk.
  - destruct (decide (rid = k)) as [->|Hne].
    + rewrite lookup_insert_eq. simplify_eq. eexists. split; [done|].
      simpl. repeat split; done.
    + rewrite lookup_insert_ne by done. exists r. by repeat split.
  - destruct (decide (rid = k)) as [->|Hne].
    + rewrite lookup_insert_eq. simplify_eq. eexists. split; [done|].
      simpl. repeat split; done.
    + rewrite lookup_insert_ne by done. exists r. by repeat split.
Qed.

Lemma runs_request_row acts : ∀ db k r,
  requests db !! k = Some r →
  ∃ r', requests (foldl run db acts) !! k = Some r' ∧ row_evolves r r'.
Proof.
  induction acts as [|a acts IH]; intros db k r Hk; simpl.
  - exists r. split; [done|]. unfold row_evolves. by repeat split.
  - destruct (run_request_row db a k r Hk) as (r1 & Hk1 & Hev1).
    destruct (IH _ _ _ Hk1) as (r' & Hk' & Hev').
    exists r'. split; [done|]. unfold row_evolves in *.
    destruct Hev1 as (?&?&?&?&?&?&?&Hh1), Hev' as (?&?&?&?&?&?&?&Hh').
    do 7 (split; [congruence|]).
    intros Hs. destruct (Hh1 Hs) as [Hs1 E1].
    destruct (Hh' Hs1) as [Hs' E']. split; [done|congruence].
Qed.

(** X6: whatever requests are served afterwards, a request keeps its title,
    description, reward, difficulty, [xp_value], requester and timestamp;
    and once it has left 'Live' it never returns there and keeps its
    helper. *)
Theorem request_fields_frozen db acts k r :
  requests db !! k = Some r →
  ∃ r', requests (foldl run db acts) !! k = Some r' ∧
    title r' = title r ∧ description r' = description r ∧
    reward_coins r' = reward_coins r ∧ difficulty r' = difficulty r ∧
    xp_value r' = xp_value r ∧ requester_id r' = requester_id r ∧
    timestamp r' = timestamp r ∧
    (status r ≠ Live → status r' ≠ Live ∧ helper_id r' = helper_id r).
Proof. apply runs_request_row. Qed.

Lemma request_fields_frozen_witness :
  ∃ r', requests (foldl run db_in_progress
                    [Accept_task (Some 1) 1; Register "Carol" "pbkdf2";
                     Accept_task (Some 3) 1; Helper_confirm (Some 2) 1])
          !! 1 = Some r' ∧
        reward_coins r' = 25 ∧ helper_id r' = Some 2.
Proof.
  destruct (request_fields_frozen db_in_progress
              [Accept_task (Some 1) 1; Register "Carol" "pbkdf2";
               Accept_task (Some 3) 1; Helper_confirm (Some 2) 1] 1
              (mkRequest (Some "Groceries") (Some "Two bags") 25
                         (Some "Medium") 25 1 (Some 2) Accepted 10) eq_refl)
    as (r' & Hr' & _ & _ & Hrew & _ & _ & _ & _ & Hh).
  exists r'. split; [exact Hr'|]. split; [exact Hrew|].
  apply Hh. discriminate.
Defined.

Lemma run_user_row db a k u :
  users db !! k = Some u →
  ∃ u', users (run db a) !! k = Some u' ∧
        username u' = username u ∧ password_hash u' = password_hash u ∧
        (consistent db → experience_points u ≤ experience_points u').
Proof.
  intros Hk.
  destruct (run_users_change db a)
    as [|name pw _|j v c Hj _|j v rid r Hj Hr _].
  - exists u. by repeat split.
  - exists u. rewrite lookup_insert_ne; [by repeat split|].
    intros <-. by rewrite next_id_fresh in Hk.
  - destruct (decide (j = k)) as [->|Hne].
    + rewrite lookup_insert_eq. simplify_eq. eexists. by repeat split.
    + rewrite lookup_insert_ne by done. exists u. by repeat split.
  - destruct (decide (j = k)) as [->|Hne].
    + rewrite lookup_insert_eq. simplify_eq. eexists.
      repeat split; try done. intros Hc. simpl.
      destruct (requests_ok db Hc _ _ Hr) as [? ? _ _ _ _]. lia.
    + rewrite lookup_insert_ne by done. exists u. by repeat split.
Qed.

Lemma run_message_row db a k m :
  messages db !! k = Some m → messages (run db a) !! k = Some m.
Proof.
  intros Hk. destruct a as [name pw|sess method form now|sess rid|sess rid
                           |sess rid|sess rid text now]; simpl.
  - unfold register_user. by destruct (filter _ _).
  - by destruct (create_request_cases db sess method form now)
      as [->|(rq & t & d & _ & _ & _ & _ & _ & ->)].
  - unfold accept_task. route_split; done.
  - unfold helper_confirm. route_split; done.
  - unfold requester_approve. route_split; done.
  - unfold send_message.
    destruct text as [[|c text]|]; try done;
      destruct (requests db !! rid); try done.
    destruct (get_current_user db sess); [|done].
    case_decide; [done|]. simpl. rewrite lookup_insert_ne; [done|].
    intros <-. by rewrite next_id_fresh in Hk.
Qed.

Lemma consistent_runs acts : ∀ db,
  consistent db → consistent (foldl run db acts).
Proof.
  induction acts as [|a acts IH]; intros db Hc; simpl; [done|].
  by apply IH, consistent_run.
Qed.

Lemma runs_user_row acts : ∀ db k u,
  users db !! k = Some u →
  ∃ u', users (foldl run db acts) !! k = Some u' ∧
        username u' = username u ∧ password_hash u' = password_hash u ∧
        (consistent db → experience_points u ≤ experience_points u').
Proof.
  induction acts as [|a acts IH]; intros db k u Hk; simpl.
  - exists u. by repeat split.
  - destruct (run_user_row db a k u Hk) as (u1 & Hk1 & Hn1 & Hp1 & Hx1).
    destruct (IH _ _ _ Hk1) as (u' & Hk' & Hn' & Hp' & Hx').
    exists u'. repeat split; try congruence.
    intros Hc. specialize (Hx1 Hc).
    specialize (Hx' (consistent_run db a Hc)). lia.
Qed.

Lemma runs_message_row acts : ∀ db k m,
  messages db !! k = Some m → messages (foldl run db acts) !! k = Some m.
Proof.
  induction acts as [|a acts IH]; intros db k m Hk; simpl; [done|].
  by apply IH, run_message_row.
Qed.

(** X7: no served request deletes or rewrites a user's identity or a
    message: a user row stays under its key with its username and password
    hash, and a message row stays exactly as it was sent. *)
Theorem rows_are_kept db acts :
  (∀ k u, users db !! k = Some u →
     ∃ u', users (foldl run db acts) !! k = Some u' ∧
           username u' = username u ∧ password_hash u' = password_hash u) ∧
  (∀ k m, messages db !! k = Some m →
     messages (foldl run db acts) !! k = Some m).
Proof.
  split.
  - intros k u Hk.
    destruct (runs_user_row acts db k u Hk) as (u' & ? & ? & ? & _). eauto.
  - intros k m. apply runs_message_row.
Qed.

Lemma rows_are_kept_witness :
  messages (foldl run db_in_progress
              [Send_message (Some 1) 1 (Some "Thanks") 30;
               Helper_confirm (Some 2) 1; Requester_approve (Some 1) 1])
    !! 1 = Some (mkMessage 1 2 "On my way" 20).
Proof.
  exact (proj2 (rows_are_kept db_in_progress
                  [Send_message (Some 1) 1 (Some "Thanks") 30;
                   Helper_confirm (Some 2) 1; Requester_approve (Some 1) 1])
               1 (mkMessage 1 2 "On my way" 20) eq_refl).
Defined.

(** X8: from a reachable state on, a user's experience points never
    decrease, whatever requests are served. *)
Theorem experience_never_decreases db acts k u :
  reachable db → users db !! k = Some u →
  ∃ u', users (foldl run db acts) !! k = Some u' ∧
        experience_points u ≤ experience_points u'.
Proof.
  intros Hreach Hk.
  destruct (runs_user_row acts db k u Hk) as (u' & Hk' & _ & _ & Hx).
  exists u'. split; [done|]. by apply Hx, reachable_consistent.
Qed.

Lemma experience_never_decreases_witness :
  ∃ u', users (foldl run db_in_progress
                 [Helper_confirm (Some 2) 1; Requester_approve (Some 1) 1])
          !! 2 = Some u' ∧ 60 ≤ experience_points u'.
Proof.
  exact (experience_never_decreases db_in_progress
           [Helper_confirm (Some 2) 1; Requester_approve (Some 1) 1] 2
           (mkUser "HelperB" "pbkdf2" 100 60)
           reachable_db_in_progress eq_refl).
Defined.

(** ** Rank *)

(** X9: the rank label determines the band: 'Newbie' is every total below
    10, negative ones included, 'Helper Recruit' is 10..49, 'Active Peer'
    50..199, 'Community Elder' 200..499 and 'Karmic Master' 500 and up. *)
Theorem rank_determines_band (xp : Z) :
  (get_karmic_rank xp = "Newbie" ↔ xp < 10) ∧
  (get_karmic_rank xp = "Helper Recruit" ↔ 10 ≤ xp < 50) ∧
  (get_karmic_rank xp = "Active Peer" ↔ 50 ≤ xp < 200) ∧
  (get_karmic_rank xp = "Community Elder" ↔ 200 ≤ xp < 500) ∧
  (get_karmic_rank xp = "Karmic Master" ↔ 500 ≤ xp).
Proof.
  unfold get_karmic_rank. rewrite !Z.geb_leb.
  destruct (Z.leb_spec 500 xp), (Z.leb_spec 200 xp), (Z.leb_spec 50 xp),
           (Z.leb_spec 10 xp);
    repeat split; intros; first [lia | discriminate | reflexivity].
Qed.

(** ** Confirmation and approval *)

Lemma helper_confirm_confirms db sess rid r h :
  requests db !! rid = Some r → get_current_user db sess = Some h →
  helper_id r = Some h.1 → status r = Accepted →
  helper_confirm db sess rid =
    Returned (put_request rid (set_status Confirmed_By_Helper r) db)
             [CompletionConfirmed] (Redirect To_index).
Proof.
  intros Hr Hh Hid Hs. unfold helper_confirm. rewrite Hr, Hh.
  case_decide as Hg; [|done]. destruct Hg; done.
Qed.

(** X10: for an acting user, [helper_confirm] goes through exactly when
    the request exists, is 'Accepted' and the actor is its helper; it then
    changes only that request's status, to 'Confirmed_By_Helper'.  A
    rejected call changes nothing. *)
Theorem helper_confirm_spec db sess rid h :
  get_current_user db sess = Some h →
  let o := helper_confirm db sess rid in
  (succeeded o = true ↔
     ∃ r, requests db !! rid = Some r ∧ helper_id r = Some h.1 ∧
          status r = Accepted) ∧
  (∀ r, requests db !! rid = Some r → succeeded o = true →
     db_of o = put_request rid (set_status Confirmed_By_Helper r) db) ∧
  (succeeded o = false → db_of o = db).
Proof.
  intros Hh o. subst o. split; [|split].
  - split.
    + unfold helper_confirm. rewrite Hh.
      destruct (requests db !! rid) as [r|]; [|done].
      case_decide as Hg; [done|]. intros _. exists r. split; [done|].
      split.
      * destruct (decide (helper_id r = Some h.1)); [done|].
        destruct Hg. by left.
      * destruct (decide (status r = Accepted)); [done|].
        destruct Hg. by right.
    + intros (r & Hr & Hid & Hs).
      by rewrite (helper_confirm_confirms _ _ _ _ _ Hr Hh Hid Hs).
  - intros r Hr. unfold helper_confirm. rewrite Hr, Hh.
    by case_decide.
  - unfold helper_confirm. rewrite Hh.
    destruct (requests db !! rid); [|done]. by case_decide.
Qed.

Lemma helper_confirm_spec_witness :
  succeeded (helper_confirm db_in_progress (Some 2) 1) = true ∧
  db_of (helper_confirm db_in_progress (Some 1) 1) = db_in_progress.
Proof.
  pose proof (helper_confirm_spec db_in_progress (Some 2) 1
                (2, mkUser "HelperB" "pbkdf2" 100 60) eq_refl) as H2.
  pose proof (helper_confirm_spec db_in_progress (Some 1) 1
                (1, mkUser "RequesterA" "pbkdf2" 475 120) eq_refl) as H1.
  split.
  - apply (proj1 H2). eexists. split; [reflexivity|]. split; reflexivity.
  - apply (proj2 (proj2 H1)). reflexivity.
Defined.

(** X11: in a reachable state and for an acting user, [requester_approve]
    goes through exactly when the request exists, is 'Confirmed_By_Helper'
    and the actor is its requester; an attempt by anyone else, the helper
    included, or at any other status is rejected and changes nothing. *)
Theorem requester_approve_spec db sess rid rq :
  reachable db → get_current_user db sess = Some rq →
  let o := requester_approve db sess rid in
  (succeeded o = true ↔
     ∃ r, requests db !! rid = Some r ∧ requester_id r = rq.1 ∧
          status r = Confirmed_By_Helper) ∧
  (succeeded o = false → db_of o = db) ∧
  (∀ r, requests db !! rid = Some r → helper_id r = Some rq.1 →
     succeeded o = false).
Proof.
  intros Hreach Hrq o. subst o.
  pose proof (reachable_helpers_assigned db Hreach) as Hinv.
  assert (Hiff : succeeded (requester_approve db sess rid) = true ↔
            ∃ r, requests db !! rid = Some r ∧ requester_id r = rq.1 ∧
                 status r = Confirmed_By_Helper).
  { split.
    - unfold requester_approve. rewrite Hrq.
      destruct (requests db !! rid) as [r|]; [|done].
      case_decide as Hg; [done|]. intros _. exists r. split; [done|].
      split.
      + destruct (decide (requester_id r = rq.1)); [done|].
        destruct Hg. by left.
      + destruct (decide (status r = Confirmed_By_Helper)); [done|].
        destruct Hg. by right.
    - intros (r & Hr & Hid & Hs).
      destruct (Hinv rid r Hr) as (hid & Hh & h & Hu); [by rewrite Hs|].
      by rewrite (requester_approve_settled _ _ _ _ _ _ _ Hr Hrq Hid Hs Hh Hu). }
  split; [exact Hiff|]. split.
  - unfold requester_approve. rewrite Hrq.
    destruct (requests db !! rid) as [r|] eqn:Hr; [|done].
    case_decide as Hg; [done|].
    destruct (Hinv rid r Hr) as (hid & Hh & h & Hu).
    { intros Hs. apply Hg. right. by rewrite Hs. }
    by rewrite Hh, Hu.
  - intros r Hr Hh. apply not_true_is_false. intros Hok.
    apply Hiff in Hok as (r' & Hr' & Hid & _). simplify_eq.
    destruct (requests_ok db (reachable_consistent db Hreach) _ _ Hr)
      as [_ _ _ _ _ Hne].
    congruence.
Qed.

Lemma requester_approve_spec_witness :
  let db := run db_in_progress (Helper_confirm (Some 2) 1) in
  succeeded (requester_approve db (Some 1) 1) = true ∧
  succeeded (requester_approve db (Some 2) 1) = false.
Proof.
  intros db.
  assert (Hreach : reachable db).
  { apply reachable_step, reachable_db_in_progress. }
  split.
  - apply (proj1 (requester_approve_spec db (Some 1) 1
             (1, mkUser "RequesterA" "pbkdf2" 475 120) Hreach eq_refl)).
    eexists. split; [reflexivity|]. split; reflexivity.
  - refine (proj2 (proj2 (requester_approve_spec db (Some 2) 1
             (2, mkUser "HelperB" "pbkdf2" 100 60) Hreach eq_refl))
             _ eq_refl eq_refl).
Defined.

(** ** The dashboard *)

Lemma accept_task_succeeds db sess rid h :
  get_current_user db sess = Some h →
  succeeded (accept_task db sess rid) = true ↔
  ∃ r, requests db !! rid = Some r ∧ status r = Live ∧ requester_id r ≠ h.1.
Proof.
  intros Hh. split.
  - unfold accept_task. rewrite Hh.
    destruct (requests db !! rid) as [r|]; [|done].
    repeat case_decide; simpl; try done.
    intros _. exists r. split; [done|]. split; [|done].
    by destruct (status r).
  - intros (r & Hr & Hs & Hne).
    by rewrite (accept_task_accepts _ _ _ _ _ Hr Hh Hs Hne).
Qed.

(** X12: for a logged-in user the dashboard lists under the live requests
    exactly the requests that [accept_task] would accept from this user,
    and under the user's own requests exactly those the user posted or
    helps with; [index] changes nothing, and in a reachable state no
    request is in both lists. *)
Theorem index_lists db sess cu :
  get_current_user db sess = Some cu →
  ∃ live mine,
    index db sess =
      Returned db []
        (Render (Dashboard cu live mine
                   (get_karmic_rank (experience_points cu.2))
                   (leaderboard_of (map_to_list (users db))))) ∧
    (∀ k r, (k, r) ∈ live ↔
       requests db !! k = Some r ∧
       succeeded (accept_task db sess k) = true) ∧
    (∀ k r, (k, r) ∈ mine ↔
       requests db !! k = Some r ∧
       (requester_id r = cu.1 ∨ helper_id r = Some cu.1)) ∧
    (reachable db → ∀ x, x ∈ live → x ∉ mine).
Proof.
  intros Hcu. unfold index. rewrite Hcu. eexists _, _. split; [reflexivity|].
  assert (Hlive : ∀ k r,
    (k, r) ∈ filter (λ r : Z * Request, status r.2 = Live ∧
                                        requester_id r.2 ≠ cu.1)
                    (map_to_list (requests db)) ↔
    requests db !! k = Some r ∧ status r = Live ∧ requester_id r ≠ cu.1).
  { intros k r. rewrite list_elem_of_filter, elem_of_map_to_list. tauto. }
  assert (Hmine : ∀ k r,
    (k, r) ∈ filter (λ r : Z * Request, requester_id r.2 = cu.1 ∨
                                        helper_id r.2 = Some cu.1)
                    (map_to_list (requests db)) ↔
    requests db !! k = Some r ∧
    (requester_id r = cu.1 ∨ helper_id r = Some cu.1)).
  { intros k r. rewrite list_elem_of_filter, elem_of_map_to_list. tauto. }
  split; [|split; [exact Hmine|]].
  - intros k r. rewrite Hlive, (accept_task_succeeds _ _ _ _ Hcu). split.
    + intros (Hr & Hs & Hne). eauto.
    + intros (Hr & r' & Hr' & Hs & Hne). by simplify_eq.
  - intros Hreach [k r] Hl Hm.
    apply Hlive in Hl as (Hr & Hs & Hne). apply Hmine in Hm as [_ [Hq|Hh]].
    + done.
    + destruct (requests_ok db (reachable_consistent db Hreach) _ _ Hr)
        as [_ _ _ _ Hlv _].
      apply Hlv in Hs. congruence.
Qed.

Lemma index_lists_witness :
  let db := run db_in_progress
              (Create_request (Some 1) POST
                 (mkForm (Some "Notes") (Some "Week 3") (Some "Easy")) 30) in
  ∃ live mine page_rank board,
    index db (Some 2) =
      Returned db []
        (Render (Dashboard (2, mkUser "HelperB" "pbkdf2" 100 60) live mine
                           page_rank board)) ∧
    map fst live = [2] ∧ map fst mine = [1].
Proof.
  intros db.
  destruct (index_lists db (Some 2) (2, mkUser "HelperB" "pbkdf2" 100 60)
              eq_refl) as (live & mine & Hi & _).
  exists live, mine. eexists _, _. split; [exact Hi|].
  vm_compute in Hi. injection Hi as <- <-. split; reflexivity.
Defined.

(** ** The chat thread *)

(** X13: on an existing request and for an acting user, being its
    requester or its helper is exactly what lets [chat_view] render the
    thread and exactly what lets [send_message] append a non-empty message.
    [chat_view] changes nothing, and the partner it shows is a user row:
    the helper's for the requester, the requester's for the helper. *)
Theorem chat_access db sess rid r cu text now :
  requests db !! rid = Some r → get_current_user db sess = Some cu →
  text ≠ "" →
  let participant := requester_id r = cu.1 ∨ helper_id r = Some cu.1 in
  (participant ↔ succeeded (chat_view db sess rid) = true) ∧
  (participant ↔
     succeeded (send_message db sess rid (Some text) now) = true) ∧
  db_of (chat_view db sess rid) = db ∧
  (∀ u q msgs pid p,
     chat_view db sess rid =
       Returned db [] (Render (ChatPage u q msgs (Some (pid, p)))) →
     users db !! pid = Some p ∧
     if decide (requester_id r = cu.1) then helper_id r = Some pid
     else pid = requester_id r).
Proof.
  intros Hr Hcu Ht participant. subst participant.
  assert (Hdec : ¬ (requester_id r ≠ cu.1 ∧ helper_id r ≠ Some cu.1) ↔
                 requester_id r = cu.1 ∨ helper_id r = Some cu.1).
  { destruct (decide (requester_id r = cu.1)),
             (decide (helper_id r = Some cu.1)); tauto. }
  split; [|split; [|split]].
  - unfold chat_view. rewrite Hr, Hcu. case_decide as Hg; simpl.
    + split; [|done]. intros Hp. apply Hdec in Hp. done.
    + split; [done|]. intros _. by apply Hdec.
  - unfold send_message. rewrite Hr, Hcu.
    destruct text as [|c text]; [done|]. case_decide as Hg; simpl.
    + split; [|done]. intros Hp. apply Hdec in Hp. done.
    + split; [done|]. intros _. by apply Hdec.
  - unfold chat_view. rewrite Hr, Hcu. by case_decide.
  - intros u q msgs pid p. unfold chat_view. rewrite Hr, Hcu.
    case_decide as Hg; [done|]. intros [= _ _ Hp].
    destruct (decide (requester_id r = cu.1)) as [Hq|Hq].
    + destruct (helper_id r) as [hid|]; [|done].
      case_decide; [done|].
      destruct (users db !! hid) eqn:E; [|done]. by simplify_eq.
    + case_decide; [done|].
      destruct (users db !! requester_id r) eqn:E; [|done]. by simplify_eq.
Qed.

Lemma chat_access_witness :
  succeeded (chat_view db_in_progress (Some 2) 1) = true ∧
  succeeded (send_message db_in_progress (Some 1) 1 (Some "Thanks") 30)
    = true.
Proof.
  destruct (chat_access db_in_progress (Some 2) 1
              (mkRequest (Some "Groceries") (Some "Two bags") 25
                         (Some "Medium") 25 1 (Some 2) Accepted 10)
              (2, mkUser "HelperB" "pbkdf2" 100 60) "Thanks" 30
              eq_refl eq_refl) as (Hv & _); [discriminate|].
  destruct (chat_access db_in_progress (Some 1) 1
              (mkRequest (Some "Groceries") (Some "Two bags") 25
                         (Some "Medium") 25 1 (Some 2) Accepted 10)
              (1, mkUser "RequesterA" "pbkdf2" 475 120) "Thanks" 30
              eq_refl eq_refl) as (_ & Hs & _); [discriminate|].
  split.
  - apply Hv. right. reflexivity.
  - apply Hs. left. reflexivity.
Defined.

Lemma messages_of_put_message db k m rid :
  messages db !! k = None →
  messages_of (put_message k m db) rid ≡ₚ
    if decide (msg_request_id m = rid) then (k, m) :: messages_of db rid
    else messages_of db rid.
Proof.
  intros Hk. rewrite !messages_of_perm. simpl.
  rewrite (map_to_list_insert _ _ _ Hk), filter_cons. simpl.
  case_decide; by rewrite ?messages_of_perm.
Qed.

(** X14: [send_message] never touches the users or the requests; a thread
    other than the addressed one holds the same messages afterwards, and
    the addressed thread holds its old messages and at most one new one,
    sent by the acting user with the submitted text and the clock's time. *)
Theorem send_message_only_appends db sess rid text now :
  let db' := db_of (send_message db sess rid text now) in
  users db' = users db ∧ requests db' = requests db ∧
  (∀ rid', rid' ≠ rid → messages_of db' rid' ≡ₚ messages_of db rid') ∧
  (messages_of db' rid ≡ₚ messages_of db rid ∨
   ∃ k cu body,
     text = Some body ∧ get_current_user db sess = Some cu ∧
     messages db !! k = None ∧
     messages_of db' rid ≡ₚ
       (k, mkMessage rid cu.1 body now) :: messages_of db rid).
Proof.
  intros db'. subst db'.
  split; [apply send_message_users|]. split; [apply send_message_requests|].
  unfold send_message.
  destruct text as [[|c body]|]; try (split; [done|by left]);
    destruct (requests db !! rid) as [r|]; try (split; [done|by left]).
  destruct (get_current_user db sess) as [cu|]; [|split; [done|by left]].
  case_decide; [split; [done|by left]|]. simpl. split.
  - intros rid' Hne.
    rewrite messages_of_put_message by apply next_id_fresh. simpl.
    by case_decide.
  - right. exists (next_id (messages db)), cu, (String c body).
    split; [done|]. split; [done|]. split; [apply next_id_fresh|].
    rewrite messages_of_put_message by apply next_id_fresh. simpl.
    by case_decide.
Qed.

(** ** More on the leaderboard *)

Lemma key_leb_antisym (k1 k2 : LeaderKey) :
  key_leb k1 k2 = true → key_leb k2 k1 = true → k1 = k2.
Proof.
  destruct k1 as [[x1 c1] n1], k2 as [[x2 c2] n2].
  rewrite !key_leb_spec.
  intros [?|[-> [?|[-> H1]]]] [?|[? [?|[? H2]]]]; try lia.
  by rewrite (String.leb_antisym _ _ H1 H2).
Qed.

Lemma NoDup_fmap_elem_inj {A B} (f : A → B) (l : list A) x y :
  NoDup (f <$> l) → x ∈ l → y ∈ l → f x = f y → x = y.
Proof.
  induction l as [|z l IH]; simpl; [by intros _ ?%elem_of_nil|].
  intros [Hz Hl]%NoDup_cons [->|Hx]%elem_of_cons [->|Hy]%elem_of_cons E;
    try done.
  - destruct Hz. rewrite E. by apply list_elem_of_fmap_2.
  - destruct Hz. rewrite <- E. by apply list_elem_of_fmap_2.
  - by apply IH.
Qed.

Lemma ranked_sorted all_users :
  StronglySorted ranks_above
    (sort_by (λ u v, key_leb (leader_key v) (leader_key u)) all_users).
Proof.
  apply (sort_by_sorted (λ u v, key_leb (leader_key v) (leader_key u))).
  - intros u v. apply key_leb_total.
  - intros u v w Huv Hvw. by eapply key_leb_trans.
Qed.

(** X15: the leaderboard has ten entries, or all users when there are
    fewer; each entry is a user of the table; and every user left out
    ranks no higher than every entry: the user has fewer experience
    points, or as many and fewer coins, or as many of both and a username
    that is not greater. *)
Theorem leaderboard_is_top_ten (all_users : list (Z * User)) :
  length (leaderboard_of all_users) = Nat.min 10 (length all_users) ∧
  (∀ u, u ∈ leaderboard_of all_users → u ∈ all_users) ∧
  (∀ u v : Z * User, u ∈ leaderboard_of all_users → v ∈ all_users →
     v ∉ leaderboard_of all_users →
     experience_points v.2 < experience_points u.2 ∨
     (experience_points v.2 = experience_points u.2 ∧
      (coins v.2 < coins u.2 ∨
       (coins v.2 = coins u.2 ∧
        String.leb (username v.2) (username u.2) = true)))).
Proof.
  unfold leaderboard_of.
  set (ranked := sort_by _ all_users).
  assert (Hperm : ranked ≡ₚ all_users) by apply sort_by_perm.
  split; [|split].
  - rewrite length_take, Hperm. done.
  - intros u Hu. rewrite <- Hperm. by eapply subseteq_take.
  - intros u v Hu Hv Hout. apply leader_key_leb.
    pose proof (ranked_sorted all_users) as Hs. fold ranked in Hs.
    rewrite <- (take_drop 10 ranked) in Hs.
    apply (StronglySorted_app_1_elem_of _ _ _ u v Hs Hu).
    rewrite <- Hperm, <- (take_drop 10 ranked) in Hv.
    apply elem_of_app in Hv as [Hv|Hv]; done.
Qed.

Lemma leaderboard_is_top_ten_witness :
  length (leaderboard_of (map_to_list (users db_in_progress))) = 2%nat.
Proof.
  exact (proj1 (leaderboard_is_top_ten (map_to_list (users db_in_progress)))).
Defined.

(** X16: when no two users share a username, as the unique column
    demands, the leaderboard does not depend on the order in which the
    table yields its rows. *)
Theorem leaderboard_ignores_row_order (l l' : list (Z * User)) :
  NoDup ((λ u, username u.2) <$> l) → l ≡ₚ l' →
  leaderboard_of l = leaderboard_of l'.
Proof.
  intros Hnd Hperm. unfold leaderboard_of. f_equal.
  apply (StronglySorted_unique_strong ranks_above).
  - intros u v Hu Hv Huv Hvu.
    rewrite sort_by_perm in Hu. rewrite sort_by_perm, <- Hperm in Hv.
    apply (NoDup_fmap_elem_inj (λ u, username u.2) l u v Hnd Hu Hv).
    pose proof (key_leb_antisym _ _ Huv Hvu) as E.
    unfold leader_key in E. by injection E.
  - apply ranked_sorted.
  - apply ranked_sorted.
  - by rewrite !sort_by_perm.
Qed.

Lemma leaderboard_ignores_row_order_witness :
  leaderboard_of (map_to_list (users db_in_progress)) =
  leaderboard_of (reverse (map_to_list (users db_in_progress))).
Proof.
  apply leaderboard_ignores_row_order.
  - vm_compute. repeat constructor; intros H; inversion H as [|? ? ? H'];
      inversion H'.
  - symmetry. apply reverse_Permutation.
Defined.

(** ** Registration and login *)

Lemma user_named_None db name :
  user_named db name = None ↔
  ∀ k u, users db !! k = Some u → username u ≠ name.
Proof.
  unfold user_named. rewrite head_None. split.
  - intros Hnil k u Hk Hn.
    apply (filter_nil_not_elem_of _ _ (k, u) Hnil); [done|].
    by apply elem_of_map_to_list.
  - intros Hno. destruct (filter _ _) as [|[k u] l] eqn:E; [done|].
    assert (Hin : (k, u) ∈ filter (λ u, username u.2 = name)
                                  (map_to_list (users db))).
    { rewrite E. apply list_elem_of_here. }
    apply list_elem_of_filter in Hin as [Hn Hin].
    apply elem_of_map_to_list in Hin. by destruct (Hno k u Hin).
Qed.

Lemma user_named_Some db name k u :
  user_named db name = Some (k, u) →
  users db !! k = Some u ∧ username u = name.
Proof.
  unfold user_named. intros Hh. apply head_Some_elem_of in Hh.
  apply list_elem_of_filter in Hh as [Hn Hin].
  by apply elem_of_map_to_list in Hin.
Qed.

Lemma user_named_put_user db name k u :
  user_named db name = None → users db !! k = None → username u = name →
  user_named (put_user k u db) name = Some (k, u).
Proof.
  intros Hnone Hk Hn. unfold user_named in *. apply head_None in Hnone.
  simpl. set (l := filter _ (map_to_list (<[k:=u]> (users db)))).
  assert (Hl : l ≡ₚ [(k, u)]).
  { unfold l. rewrite (map_to_list_insert _ _ _ Hk), filter_cons. simpl.
    rewrite Hnone. by case_decide. }
  apply Permutation_singleton_r in Hl. by rewrite Hl.
Qed.

Lemma register_user_fresh db name pw_hash :
  user_named db name = None →
  register_user db name pw_hash =
    put_user (next_id (users db)) (mkUser name pw_hash 100 0) db.
Proof.
  unfold user_named, register_user. rewrite head_None. by intros ->.
Qed.

Lemma register_user_taken db name pw_hash :
  is_Some (user_named db name) → register_user db name pw_hash = db.
Proof.
  unfold user_named, register_user. intros [x Hx].
  by destruct (filter _ _).
Qed.

Section auth_facts.
Variable strip : string → string.
Variable generate_password_hash : string → string.
Variable check_password_hash : string → string → bool.

Lemma login_signup_valid db sess form raw pw :
  form_username form = Some raw → form_password form = Some pw →
  strip raw ≠ "" → pw ≠ "" →
  login_signup strip generate_password_hash check_password_hash
    db sess POST form =
    let name := strip raw in
    let user := user_named db name in
    if decide (form_action form = Some "register") then
      match user with
      | Some _ =>
          AuthReturned db sess [UserExists name] (AuthRedirect To_login_signup)
      | None =>
          AuthReturned
            (put_user (next_id (users db))
                      (mkUser name (generate_password_hash pw) 100 0) db)
            (Some (next_id (users db)))
            [RegistrationSuccessful name 100] (AuthRedirect To_index)
      end
    else if decide (form_action form = Some "login") then
      match user with
      | Some u =>
          if check_password_hash (password_hash u.2) pw then
            AuthReturned db (Some u.1) [WelcomeBack (username u.2)]
                         (AuthRedirect To_index)
          else
            AuthReturned db sess [InvalidCredentials]
                         (AuthRedirect To_login_signup)
      | None =>
          AuthReturned db sess [InvalidCredentials]
                       (AuthRedirect To_login_signup)
      end
    else AuthReturned db sess [] (AuthRedirect To_index).
Proof.
  intros Hu Hp Hn Hpw. unfold login_signup. rewrite Hu, Hp.
  destruct (strip raw) as [|c name]; [done|].
  destruct pw as [|d pw]; [done|]. done.
Qed.

(** X17: a registration with a non-empty name and password inserts, when
    no user has the (stripped) name, a user with 100 coins and no
    experience under a fresh key and logs the session in as that user;
    when the name is taken it is rejected and neither the state nor the
    session changes. *)
Theorem login_signup_registers db sess form raw pw :
  form_username form = Some raw → form_password form = Some pw →
  strip raw ≠ "" → pw ≠ "" → form_action form = Some "register" →
  let o := login_signup strip generate_password_hash check_password_hash
    db sess POST form in
  let new_id := next_id (users db) in
  let new_user := mkUser (strip raw) (generate_password_hash pw) 100 0 in
  ((∀ k u, users db !! k = Some u → username u ≠ strip raw) →
     users db !! new_id = None ∧
     auth_db o = put_user new_id new_user db ∧
     auth_session o = Some new_id ∧
     (reachable db →
        get_current_user (auth_db o) (auth_session o)
          = Some (new_id, new_user))) ∧
  (∀ k u, users db !! k = Some u → username u = strip raw →
     o = AuthReturned db sess [UserExists (strip raw)]
                      (AuthRedirect To_login_signup)).
Proof.
  intros Hu Hp Hn Hpw Ha o new_id new_user. subst o.
  rewrite (login_signup_valid _ _ _ _ _ Hu Hp Hn Hpw). simpl.
  rewrite Ha. rewrite decide_True by done. split.
  - intros Hfree. apply user_named_None in Hfree. rewrite Hfree. simpl.
    split; [apply next_id_fresh|]. split; [done|]. split; [done|].
    intros Hreach. unfold get_current_user. simpl.
    rewrite lookup_insert_eq. case_decide as H0; [|done].
    pose proof (dense_next_id _ (users_dense db
                  (reachable_consistent db Hreach))) as Hd.
    subst new_id. lia.
  - intros k u Hk Hname.
    destruct (user_named db (strip raw)) as [x|] eqn:E; [done|].
    rewrite user_named_None in E. by destruct (E k u Hk).
Qed.

(** X18: registration and login round-trip.  When the password check
    accepts the hash made from the same password, the user a registration
    has just created can log in with the same form fields, from any
    session, and the session then holds that user's key. *)
Theorem login_after_register db sess sess' form form' raw pw :
  check_password_hash (generate_password_hash pw) pw = true →
  form_username form = Some raw → form_password form = Some pw →
  form_action form = Some "register" →
  form_username form' = Some raw → form_password form' = Some pw →
  form_action form' = Some "login" →
  strip raw ≠ "" → pw ≠ "" →
  (∀ k u, users db !! k = Some u → username u ≠ strip raw) →
  let db1 := auth_db (login_signup strip generate_password_hash check_password_hash
    db sess POST form) in
  login_signup strip generate_password_hash check_password_hash
    db1 sess' POST form' =
    AuthReturned db1 (Some (next_id (users db))) [WelcomeBack (strip raw)]
                 (AuthRedirect To_index).
Proof.
  intros Hck Hu Hp Ha Hu' Hp' Ha' Hn Hpw Hfree db1. subst db1.
  apply user_named_None in Hfree.
  assert (Hdb1 : auth_db (login_signup strip generate_password_hash check_password_hash
    db sess POST form) =
            put_user (next_id (users db))
              (mkUser (strip raw) (generate_password_hash pw) 100 0) db).
  { rewrite (login_signup_valid _ _ form _ _ Hu Hp Hn Hpw). simpl.
    by rewrite Ha, decide_True, Hfree by done. }
  rewrite Hdb1.
  rewrite (login_signup_valid _ _ form' _ _ Hu' Hp' Hn Hpw). simpl.
  rewrite Ha', decide_False, decide_True by done.
  rewrite (user_named_put_user db (strip raw) _ _ Hfree (next_id_fresh _))
    by done.
  simpl. by rewrite Hck.
Qed.

(** X19: a login never changes the tables, and it changes the session only
    to the key of a user who has the submitted (stripped) name and whose
    stored hash the password check accepts. *)
Theorem login_checks_password db sess form :
  form_action form = Some "login" →
  let o := login_signup strip generate_password_hash check_password_hash
    db sess POST form in
  auth_db o = db ∧
  (auth_session o = sess ∨
   ∃ raw pw k u,
     form_username form = Some raw ∧ form_password form = Some pw ∧
     users db !! k = Some u ∧ username u = strip raw ∧
     check_password_hash (password_hash u) pw = true ∧
     auth_session o = Some k).
Proof.
  intros Ha o. subst o. unfold login_signup.
  destruct (form_username form) as [raw|] eqn:Hu; [|by split; [|left]].
  destruct (strip raw) as [|c name] eqn:Hn; [by split; [|left]|].
  destruct (form_password form) as [[|d pw]|] eqn:Hp;
    [by split; [|left]| |by split; [|left]].
  rewrite Ha, decide_False, decide_True by done.
  destruct (user_named db (String c name)) as [[k u]|] eqn:E;
    [|by split; [|left]].
  simpl. destruct (check_password_hash _ _) eqn:Hck; [|by split; [|left]].
  split; [done|]. right. exists raw, (String d pw), k, u.
  apply user_named_Some in E as [Hk Hname]. rewrite Hn. done.
Qed.

(** X20: edge cases of [login_signup].  A POST without a username field
    raises [AttributeError]; a name that strips to nothing, or a missing or
    empty password, is answered with the EnterBoth notice; a GET renders the
    page; a POST whose action is neither 'register' nor 'login' redirects
    to the dashboard.  None of these changes the tables or the session. *)
Theorem login_signup_edges db sess form :
  (form_username form = None →
     login_signup strip generate_password_hash check_password_hash
    db sess POST form = AuthRaised db sess AttributeError) ∧
  (∀ raw, form_username form = Some raw →
     strip raw = "" ∨ form_password form = None ∨
       form_password form = Some "" →
     login_signup strip generate_password_hash check_password_hash
    db sess POST form =
       AuthReturned db sess [EnterBoth] (AuthRedirect To_login_signup)) ∧
  login_signup strip generate_password_hash check_password_hash
    db sess GET form = AuthReturned db sess [] RenderLoginSignup ∧
  (∀ raw pw, form_username form = Some raw → form_password form = Some pw →
     strip raw ≠ "" → pw ≠ "" →
     form_action form ≠ Some "register" → form_action form ≠ Some "login" →
     login_signup strip generate_password_hash check_password_hash
    db sess POST form =
       AuthReturned db sess [] (AuthRedirect To_index)).
Proof.
  split; [|split; [|split]].
  - intros Hu. unfold login_signup. by rewrite Hu.
  - intros raw Hu Hbad. unfold login_signup. rewrite Hu.
    destruct (strip raw) as [|c name]; [done|].
    destruct Hbad as [?|[-> | ->]]; done.
  - done.
  - intros raw pw Hu Hp Hn Hpw Hr Hl.
    rewrite (login_signup_valid _ _ _ _ _ Hu Hp Hn Hpw). simpl.
    by rewrite !decide_False by done.
Qed.

(** X21: whatever is submitted, [login_signup] leaves the tables as they
    were or as the registration of one user leaves them; so it leads from
    reachable states to reachable states, and never touches a request, a
    message or an existing user. *)
Theorem login_signup_stays_reachable db sess method form :
  let o := login_signup strip generate_password_hash check_password_hash
    db sess method form in
  (auth_db o = db ∨
   ∃ raw pw, auth_db o =
     run db (Register (strip raw) (generate_password_hash pw))) ∧
  (reachable db → reachable (auth_db o)) ∧
  requests (auth_db o) = requests db ∧ messages (auth_db o) = messages db ∧
  (∀ k u, users db !! k = Some u → users (auth_db o) !! k = Some u).
Proof.
  intros o.
  assert (Hshape : auth_db o = db ∨
            ∃ raw pw, user_named db (strip raw) = None ∧
              auth_db o =
                run db (Register (strip raw) (generate_password_hash pw))).
  { subst o. unfold login_signup. destruct method; [by left|].
    destruct (form_username form) as [raw|]; [|by left].
    destruct (strip raw) as [|c name] eqn:Hn; [by left|].
    destruct (form_password form) as [[|d pw]|]; [by left| |by left].
    case_decide.
    - destruct (user_named db (String c name)) eqn:E; [by left|].
      right. exists raw, (String d pw). rewrite Hn. split; [done|].
      simpl. by rewrite register_user_fresh.
    - case_decide; [|by left].
      destruct (user_named db (String c name)) as [u|]; [|by left].
      by destruct (check_password_hash _ _); left. }
  split; [|split; [|split; [|split]]].
  - destruct Hshape as [?|(raw & pw & _ & ?)]; eauto.
  - intros Hreach. destruct Hshape as [->|(raw & pw & _ & ->)]; [done|].
    by apply reachable_step.
  - destruct Hshape as [->|(raw & pw & _ & ->)]; [done|].
    simpl. apply register_user_requests.
  - destruct Hshape as [->|(raw & pw & Hf & ->)]; [done|].
    simpl. by rewrite register_user_fresh.
  - intros k u Hk. destruct Hshape as [->|(raw & pw & Hf & ->)]; [done|].
    simpl. rewrite register_user_fresh by done. simpl.
    rewrite lookup_insert_ne; [done|].
    intros <-. by rewrite next_id_fresh in Hk.
Qed.
End auth_facts.

Lemma login_signup_registers_witness :
  let o := login_signup example_strip example_hash example_check
             db_in_progress None POST
             (mkAuthForm (Some "Carol") (Some "secret") (Some "register")) in
  auth_session o = Some 3 ∧
  get_current_user (auth_db o) (auth_session o)
    = Some (3, mkUser "Carol" "h$secret" 100 0).
Proof.
  intros o.
  destruct (login_signup_registers example_strip example_hash example_check
              db_in_progress None
              (mkAuthForm (Some "Carol") (Some "secret") (Some "register"))
              "Carol" "secret" eq_refl eq_refl) as [H _];
    [discriminate|discriminate|reflexivity|].
  destruct H as (_ & _ & Hs & Hg).
  - apply (proj1 (user_named_None db_in_progress "Carol")). reflexivity.
  - split; [exact Hs|]. exact (Hg reachable_db_in_progress).
Defined.

Lemma login_after_register_witness :
  auth_session
    (login_signup example_strip example_hash example_check
       (auth_db (login_signup example_strip example_hash example_check
                   db_in_progress None POST
                   (mkAuthForm (Some "Carol") (Some "secret")
                               (Some "register"))))
       None POST (mkAuthForm (Some "Carol") (Some "secret") (Some "login")))
  = Some 3.
Proof.
  rewrite (login_after_register example_strip example_hash example_check
             db_in_progress None None
             (mkAuthForm (Some "Carol") (Some "secret") (Some "register"))
             (mkAuthForm (Some "Carol") (Some "secret") (Some "login"))
             "Carol" "secret" eq_refl eq_refl eq_refl eq_refl eq_refl eq_refl
             eq_refl).
  - reflexivity.
  - discriminate.
  - discriminate.
  - apply (proj1 (user_named_None db_in_progress "Carol")). reflexivity.
Defined.

Lemma login_checks_password_witness :
  let o := login_signup example_strip example_hash example_check
             db_in_progress None POST
             (mkAuthForm (Some "HelperB") (Some "guess") (Some "login")) in
  auth_db o = db_in_progress ∧ auth_session o = None.
Proof.
  intros o.
  destruct (login_checks_password example_strip example_hash example_check
              db_in_progress None
              (mkAuthForm (Some "HelperB") (Some "guess") (Some "login"))
              eq_refl) as [Hdb _].
  split; [exact Hdb|reflexivity].
Defined.

Lemma login_signup_edges_witness :
  login_signup example_strip example_hash example_check db_in_progress
               (Some 1) POST (mkAuthForm None (Some "secret") (Some "login"))
    = AuthRaised db_in_progress (Some 1) AttributeError ∧
  login_signup example_strip example_hash example_check db_in_progress
               (Some 1) POST (mkAuthForm (Some "") (Some "secret")
                                         (Some "login"))
    = AuthReturned db_in_progress (Some 1) [EnterBoth]
                   (AuthRedirect To_login_signup).
Proof.
  split.
  - exact (proj1 (login_signup_edges example_strip example_hash example_check
             db_in_progress (Some 1)
             (mkAuthForm None (Some "secret") (Some "login"))) eq_refl).
  - exact (proj1 (proj2 (login_signup_edges example_strip example_hash
             example_check db_in_progress (Some 1)
             (mkAuthForm (Some "") (Some "secret") (Some "login"))))
           "" eq_refl (or_introl eq_refl)).
Defined.

Lemma login_signup_stays_reachable_witness :
  reachable
    (auth_db (login_signup example_strip example_hash example_check
                db_in_progress None POST
                (mkAuthForm (Some "Carol") (Some "secret")
                            (Some "register")))).
Proof.
  exact (proj1 (proj2 (login_signup_stays_reachable example_strip
           example_hash example_check db_in_progress None POST
           (mkAuthForm (Some "Carol") (Some "secret") (Some "register"))))
         reachable_db_in_progress).
Defined.

(** ** The whole lifecycle *)

Lemma get_current_user_Some db sess cu :
  get_current_user db sess = Some cu ↔
  sess = Some cu.1 ∧ cu.1 ≠ 0 ∧ users db !! cu.1 = Some cu.2.
Proof.
  unfold get_current_user. destruct cu as [k u]. simpl.
  destruct sess as [uid|]; [|split; [done|by intros [? _]]].
  case_decide as H0.
  - split; [done|]. intros ([= ->] & ? & _). done.
  - destruct (users db !! uid) eqn:E.
    + split; [by intros [= <- <-]|]. intros ([= ->] & _ & Hk). congruence.
    + split; [done|]. intros ([= ->] & _ & Hk). congruence.
Qed.

(** X22: the operations compose into a settlement.  When user A, holding
    at least the reward, submits a request with a title and a description,
    another user B accepts it and confirms, and A approves, the request
    ends 'Completed' with B as its helper, A holds exactly the reward less,
    B exactly the reward more in coins and in experience, and no other
    user, request or message has changed. *)
Theorem lifecycle_end_to_end db sa sb a b form now t d :
  get_current_user db sa = Some a → get_current_user db sb = Some b →
  a.1 ≠ b.1 →
  form_title form = Some t → form_description form = Some d →
  xp_mapping_get (form_difficulty form) 10 ≤ coins a.2 →
  let reward := xp_mapping_get (form_difficulty form) 10 in
  let rid := next_id (requests db) in
  let db1 := db_of (create_request db sa POST form now) in
  let db2 := db_of (accept_task db1 sb rid) in
  let db3 := db_of (helper_confirm db2 sb rid) in
  let db4 := db_of (requester_approve db3 sa rid) in
  requests db !! rid = None ∧
  requests db4 !! rid =
    Some (mkRequest (Some t) (Some d) reward
                    (Some (default "Medium" (form_difficulty form))) reward
                    a.1 (Some b.1) Completed now) ∧
  users db4 !! a.1 = Some (set_coins (coins a.2 - reward) a.2) ∧
  users db4 !! b.1 =
    Some (mkUser (username b.2) (password_hash b.2) (coins b.2 + reward)
                 (experience_points b.2 + reward)) ∧
  (∀ k, k ≠ a.1 → k ≠ b.1 → users db4 !! k = users db !! k) ∧
  (∀ k, k ≠ rid → requests db4 !! k = requests db !! k) ∧
  messages db4 = messages db ∧
  total_supply db4 = total_supply db.
Proof.
  intros Ha Hb Hab Ht Hd Hfund reward rid db1 db2 db3 db4.
  pose proof Ha as Ha0. pose proof Hb as Hb0.
  apply get_current_user_Some in Ha as (Hsa & Ha0' & Hua).
  apply get_current_user_Some in Hb as (Hsb & Hb0' & Hub).
  set (r1 := mkRequest (Some t) (Some d) reward
                       (Some (default "Medium" (form_difficulty form)))
                       reward a.1 None Live now).
  set (a' := set_coins (coins a.2 - reward) a.2).
  assert (E1 : db1 = put_request rid r1 (put_user a.1 a' db)).
  { subst db1.
    by rewrite (create_request_funded _ _ _ _ _ _ _ Ha0 Ht Hd Hfund). }
  assert (Hb1 : get_current_user db1 sb = Some b).
  { apply get_current_user_Some. rewrite E1. simpl.
    by rewrite lookup_insert_ne. }
  set (r2 := set_status Accepted (set_helper_id (Some b.1) r1)).
  assert (E2 : db2 = put_request rid r2 db1).
  { subst db2. rewrite (accept_task_accepts db1 sb rid r1 b); try done.
    rewrite E1. simpl. by rewrite lookup_insert_eq. }
  assert (Hb2 : get_current_user db2 sb = Some b).
  { apply get_current_user_Some. rewrite E2, E1. simpl.
    by rewrite lookup_insert_ne. }
  set (r3 := set_status Confirmed_By_Helper r2).
  assert (E3 : db3 = put_request rid r3 db2).
  { subst db3. rewrite (helper_confirm_confirms db2 sb rid r2 b); try done.
    rewrite E2. simpl. by rewrite lookup_insert_eq. }
  assert (Ha3 : get_current_user db3 sa = Some (a.1, a')).
  { apply get_current_user_Some. rewrite E3, E2, E1. simpl.
    by rewrite lookup_insert_eq. }
  assert (E4 : db4 = put_request rid (set_status Completed r3)
                       (put_user b.1 (credited r3 b.2) db3)).
  { subst db4.
    rewrite (requester_approve_settled db3 sa rid r3 (a.1, a') b.1 b.2);
      try done.
    - rewrite E3. simpl. by rewrite lookup_insert_eq.
    - rewrite E3, E2, E1. simpl. by rewrite lookup_insert_ne. }
  split; [apply next_id_fresh|].
  rewrite E4, E3, E2, E1. simpl.
  split; [by rewrite lookup_insert_eq|].
  split; [by rewrite lookup_insert_ne, lookup_insert_eq by done|].
  split; [by rewrite lookup_insert_eq|].
  split; [intros k ? ?; by rewrite !lookup_insert_ne by done|].
  split; [intros k ?; by rewrite !lookup_insert_ne by done|].
  split; [done|].
  unfold total_supply. simpl.
  rewrite !insert_insert_eq.
  rewrite (table_sum_insert_fresh escrow _ rid _ (next_id_fresh _)).
  rewrite (table_sum_insert_update coins _ b.1 _ b.2)
    by (by rewrite lookup_insert_ne).
  rewrite (table_sum_insert_update coins _ a.1 _ a.2) by done.
  unfold escrow. simpl. lia.
Qed.

Lemma lifecycle_end_to_end_witness :
  let db := initialize_app "pbkdf2" in
  let db1 := db_of (create_request db (Some 2) POST
                      (mkForm (Some "Notes") (Some "Week 3") (Some "Hard"))
                      10) in
  let db2 := db_of (accept_task db1 (Some 1) 1) in
  let db3 := db_of (helper_confirm db2 (Some 1) 1) in
  let db4 := db_of (requester_approve db3 (Some 2) 1) in
  (coins <$> users db4 !! 2) = Some 50 ∧ (coins <$> users db4 !! 1) = Some 550.
Proof.
  intros db db1 db2 db3 db4.
  destruct (lifecycle_end_to_end db (Some 2) (Some 1)
              (2, mkUser "HelperB" "pbkdf2" 100 60)
              (1, mkUser "RequesterA" "pbkdf2" 500 120)
              (mkForm (Some "Notes") (Some "Week 3") (Some "Hard")) 10
              "Notes" "Week 3" eq_refl eq_refl)
    as (_ & _ & Ha & Hb & _);
    [discriminate|reflexivity|reflexivity|vm_compute; discriminate|].
  split.
  - exact (f_equal (fmap coins) Ha).
  - exact (f_equal (fmap coins) Hb).
Defined.
